(** * weight-tracker: device registration, authentication and session gate

    A shallow embedding of [src/main.py].  The Streamlit script keeps its
    state in three places: the Firebase realtime database (the device
    registry under the path "devices"), the per-connection
    [st.session_state] dictionary, and the page it draws.
    Every function of the script is embedded as a computation over a
    [World] holding those three, in a state-and-exception monad, so that
    [try]/[except], dictionary updates and early returns read as they do
    in the Python source. *)

From Stdlib Require Import ZArith Ascii String List.
From stdpp Require Import gmap strings list fin_maps.

(* ===================================================================== *)
(** ** hashlib: SHA-256 over byte strings (FIPS 180-4)                    *)
(* ===================================================================== *)

(** [hash_pasword] calls [hashlib.sha256(...).hexdigest()].  The digest is
    embedded as an executable function on 32-bit words carried in [Z], so
    that registration and login can be evaluated on concrete passwords. *)
Module hashlib.
Local Open Scope Z_scope.

Definition mask32 : Z := 4294967295.

Definition w32 (x : Z) : Z := Z.land x mask32.

Definition add32 (x y : Z) : Z := w32 (x + y).

Definition rotr (n x : Z) : Z :=
  Z.lor (Z.shiftr x n) (w32 (Z.shiftl x (32 - n))).

Definition shr (n x : Z) : Z := Z.shiftr x n.

Definition xor3 (x y z : Z) : Z := Z.lxor (Z.lxor x y) z.

Definition Ch (x y z : Z) : Z :=
  Z.lxor (Z.land x y) (Z.land (Z.lxor x mask32) z).

Definition Maj (x y z : Z) : Z :=
  xor3 (Z.land x y) (Z.land x z) (Z.land y z).

Definition Sigma0 (x : Z) : Z := xor3 (rotr 2 x) (rotr 13 x) (rotr 22 x).
Definition Sigma1 (x : Z) : Z := xor3 (rotr 6 x) (rotr 11 x) (rotr 25 x).
Definition sigma0 (x : Z) : Z := xor3 (rotr 7 x) (rotr 18 x) (shr 3 x).
Definition sigma1 (x : Z) : Z := xor3 (rotr 17 x) (rotr 19 x) (shr 10 x).

(** The round constants are the fractional parts of the cube roots of the
    first 64 primes, the initial hash value those of the square roots of
    the first 8; both are computed rather than tabulated. *)
Definition is_prime (p : Z) : bool :=
  (1 <? p) && forallb (fun d => negb (p mod d =? 0))
                      (map Z.of_nat (seq 2 (Z.to_nat p - 2))).

Definition first_primes (n : nat) : list Z :=
  firstn n (List.filter is_prime (map Z.of_nat (seq 2 310))).

(** Floor of the cube root, one result bit at a time from bit [bits - 1]. *)
Fixpoint icbrt_bits (bits : nat) (n r : Z) : Z :=
  match bits with
  | O => r
  | S b =>
      let c := r + Z.shiftl 1 (Z.of_nat b) in
      icbrt_bits b n (if c * c * c <=? n then c else r)
  end.

Definition icbrt (n : Z) : Z := icbrt_bits 40 n 0.

Definition K : list Z :=
  Eval vm_compute in
    map (fun p => w32 (icbrt (Z.shiftl p 96))) (first_primes 64).

Definition H0 : list Z :=
  Eval vm_compute in
    map (fun p => w32 (Z.sqrt (Z.shiftl p 64))) (first_primes 8).

(** Big-endian bytes of a [n]-byte quantity. *)
Fixpoint be_bytes (n : nat) (x : Z) : list Z :=
  match n with
  | O => []
  | S m => Z.land (Z.shiftr x (8 * Z.of_nat m)) 255 :: be_bytes m x
  end.

Fixpoint be_word (bs : list Z) (acc : Z) : Z :=
  match bs with
  | [] => acc
  | b :: rest => be_word rest (Z.lor (Z.shiftl acc 8) b)
  end.

(** Padding: a 1 bit, zero bits up to 448 modulo 512, the bit length. *)
Definition pad (msg : list Z) : list Z :=
  let len := Z.of_nat (length msg) in
  msg ++ 128 :: repeat 0 (Z.to_nat ((55 - len) mod 64)) ++ be_bytes 8 (8 * len).

Fixpoint words (n : nat) (bs : list Z) : list Z :=
  match n with
  | O => []
  | S m => be_word (firstn 4 bs) 0 :: words m (skipn 4 bs)
  end.

(** Message schedule, most recent word first. *)
Fixpoint schedule (n : nat) (rev_w : list Z) : list Z :=
  match n with
  | O => rev_w
  | S m =>
      let w := add32 (add32 (sigma1 (nth 1 rev_w 0)) (nth 6 rev_w 0))
                     (add32 (sigma0 (nth 14 rev_w 0)) (nth 15 rev_w 0)) in
      schedule m (w :: rev_w)
  end.

Record regs := Regs { ra : Z; rb : Z; rc : Z; rd : Z;
                      re : Z; rf : Z; rg : Z; rh : Z }.

Definition round (s : regs) (kw : Z * Z) : regs :=
  let t1 := add32 (add32 (add32 (rh s) (Sigma1 (re s)))
                         (add32 (Ch (re s) (rf s) (rg s)) (fst kw))) (snd kw) in
  let t2 := add32 (Sigma0 (ra s)) (Maj (ra s) (rb s) (rc s)) in
  Regs (add32 t1 t2) (ra s) (rb s) (rc s) (add32 (rd s) t1) (re s) (rf s) (rg s).

Definition regs_of (h : list Z) : regs :=
  Regs (nth 0 h 0) (nth 1 h 0) (nth 2 h 0) (nth 3 h 0)
       (nth 4 h 0) (nth 5 h 0) (nth 6 h 0) (nth 7 h 0).

Definition regs_list (s : regs) : list Z :=
  [ra s; rb s; rc s; rd s; re s; rf s; rg s; rh s].

Definition compress (h : list Z) (block : list Z) : list Z :=
  let w := rev (schedule 48 (rev (words 16 block))) in
  let s := fold_left round (combine K w) (regs_of h) in
  map (fun p => add32 (fst p) (snd p)) (combine h (regs_list s)).

Fixpoint blocks (n : nat) (h : list Z) (bs : list Z) : list Z :=
  match n with
  | O => h
  | S m => blocks m (compress h (firstn 64 bs)) (skipn 64 bs)
  end.

(** [sha256(data).digest()] as the eight words of the final hash value. *)
Definition sha256 (data : list Z) : list Z :=
  let padded := pad data in
  blocks (length padded / 64)%nat H0 padded.

Definition hex_digit (d : Z) : ascii :=
  ascii_of_nat (Z.to_nat (if d <? 10 then 48 + d else 87 + d)).

Fixpoint hex_of_bytes (bs : list Z) : string :=
  match bs with
  | [] => EmptyString
  | b :: rest =>
      String (hex_digit (Z.shiftr b 4))
             (String (hex_digit (Z.land b 15)) (hex_of_bytes rest))
  end.

(** [.hexdigest()]: 64 lowercase hexadecimal digits. *)
Definition hexdigest (h : list Z) : string :=
  hex_of_bytes (flat_map (be_bytes 4) h).

End hashlib.

(** A Python [str] is carried as the byte string of its UTF-8 encoding, so
    [str.encode()] is the list of its bytes. *)
Definition encode (s : string) : list Z :=
  map (fun c => Z.of_nat (nat_of_ascii c)) (list_ascii_of_string s).

(** [hash_pasword] (main.py, 37-51). *)
Definition hash_pasword (password : string) : string :=
  hashlib.hexdigest (hashlib.sha256 (encode password)).


(* ===================================================================== *)
(** ** Data model                                                         *)
(* ===================================================================== *)

(** The dictionary [register_device] stores under a device id
    (main.py, 100-104); the field names are its keys. *)
Module device.
Record t := mk { user_type : string; password : string; registerd_at : string }.
End device.

(** [st.session_state] holds a string, a boolean or [None] under a key. *)
Inductive value := VNone | VBool (b : bool) | VStr (s : string).

Definition value_eqb (x y : value) : bool :=
  match x, y with
  | VNone, VNone => true
  | VBool a, VBool b => Bool.eqb a b
  | VStr a, VStr b => String.eqb a b
  | _, _ => false
  end.

(** An instance of a subclass of Python's [Exception]: its class name and
    [str(e)]. *)
Record exception := mkException { cls : string; str : string }.

(** What running a piece of the script ends in: a value, a raised
    [Exception], or the script being halted by [st.rerun()] (whose
    control-flow signal is not an [Exception] and passes through
    [except Exception]). *)
Inductive outcome (A : Type) :=
| Return (a : A)
| Raise (e : exception)
| Rerun.
Arguments Return {A} a.
Arguments Raise {A} e.
Arguments Rerun {A}.

(** The state the script runs against.
    - [devices_node]: the value stored at the database path "devices",
      [None] when nothing was ever written there; [register_device] is
      the only writer of that path, so every entry has the three keys of
      [device.t];
    - [get_fault], [set_fault]: whether the backend, as it is now, answers
      a read or a write with an exception instead;
    - [session_state]: Streamlit's per-connection dictionary;
    - [secrets_user_type]: the configured role names,
      [st.secrets["app"]["user_type"]];
    - [pressed]: the buttons, by label, pressed in this run of the script;
    - [now_isoformat]: what [datetime.now().isoformat()] reads;
    - [uuid4_stream], [uuid4_drawn]: the identifiers [uuid.uuid4()] yields
      and how many were taken;
    - [page]: the messages drawn so far, oldest first. *)
Record World := mkWorld {
  devices_node : option (gmap string device.t);
  get_fault : option exception;
  set_fault : option exception;
  session_state : gmap string value;
  secrets_user_type : list string;
  pressed : string -> bool;
  now_isoformat : string;
  uuid4_stream : nat -> string;
  uuid4_drawn : nat;
  page : list string
}.

Definition with_devices_node (v : option (gmap string device.t)) (w : World) : World :=
  mkWorld v (get_fault w) (set_fault w) (session_state w)
          (secrets_user_type w) (pressed w)
          (now_isoformat w) (uuid4_stream w) (uuid4_drawn w) (page w).

Definition with_session_state (s : gmap string value) (w : World) : World :=
  mkWorld (devices_node w) (get_fault w) (set_fault w) s
          (secrets_user_type w) (pressed w)
          (now_isoformat w) (uuid4_stream w) (uuid4_drawn w) (page w).

Definition with_uuid4_drawn (n : nat) (w : World) : World :=
  mkWorld (devices_node w) (get_fault w) (set_fault w) (session_state w)
          (secrets_user_type w) (pressed w)
          (now_isoformat w) (uuid4_stream w) n (page w).

Definition with_page (p : list string) (w : World) : World :=
  mkWorld (devices_node w) (get_fault w) (set_fault w) (session_state w)
          (secrets_user_type w) (pressed w)
          (now_isoformat w) (uuid4_stream w) (uuid4_drawn w) p.

(** The registry as the script sees it: [ref.get() or {}]. *)
Definition registry (w : World) : gmap string device.t :=
  default ∅ (devices_node w).

(* ===================================================================== *)
(** ** The script monad                                                   *)
(* ===================================================================== *)

Definition M (A : Type) : Type := World -> outcome A * World.

Definition ret {A} (a : A) : M A := fun w => (Return a, w).

Definition bind {A B} (m : M A) (k : A -> M B) : M B :=
  fun w =>
    match m w with
    | (Return a, w') => k a w'
    | (Raise e, w') => (Raise e, w')
    | (Rerun, w') => (Rerun, w')
    end.

Declare Scope script_scope.
Delimit Scope script_scope with script.
Notation "x <- c1 ;; c2" := (bind c1 (fun x => c2))
  (at level 100, c1 at next level, right associativity) : script_scope.
Notation "c1 ;; c2" := (bind c1 (fun _ => c2))
  (at level 100, right associativity) : script_scope.
Local Open Scope script_scope.

Definition raise {A} (e : exception) : M A := fun w => (Raise e, w).

(** [try: body except Exception as e: handler(e)]. *)
Definition try_except {A} (body : M A) (handler : exception -> M A) : M A :=
  fun w =>
    match body w with
    | (Raise e, w') => handler e w'
    | r => r
    end.

(** [for x in xs: body(x)]. *)
Fixpoint for_ {A} (xs : list A) (body : A -> M unit) : M unit :=
  match xs with
  | [] => ret tt
  | x :: rest => body x ;; for_ rest body
  end.

(** An expression statement: the value is computed and dropped. *)
Definition expr_stmt {A} (v : A) : M unit := ret tt.

Definition pass : M unit := ret tt.

(* ===================================================================== *)
(** ** What the script calls: Firebase, Streamlit, uuid, datetime         *)
(* ===================================================================== *)

(** [db.reference("devices").get()]: the stored value, [None] when the
    path is empty; the backend's exception when the read fails. *)
Definition ref_get : M (option (gmap string device.t)) :=
  fun w =>
    match get_fault w with
    | Some e => raise e w
    | None => ret (devices_node w) w
    end.

(** [db.reference("devices").set(devices)]: replaces the whole subtree. *)
Definition ref_set (devices : gmap string device.t) : M unit :=
  fun w =>
    match set_fault w with
    | Some e => raise e w
    | None => ret tt (with_devices_node (Some devices) w)
    end.

(** [x or {}]. *)
Definition or_empty (x : option (gmap string device.t)) : gmap string device.t :=
  match x with
  | Some d => if decide (d = ∅) then ∅ else d
  | None => ∅
  end.

(** [devices.values()], in the order the map lists its entries. *)
Definition values (devices : gmap string device.t) : list device.t :=
  (map_to_list devices).*2.

(** [key in st.session_state]. *)
Definition session_contains (key : string) : M bool :=
  fun w => (Return (bool_decide (is_Some (session_state w !! key))), w).

(** [st.session_state[key]]. *)
Definition session_get (key : string) : M value :=
  fun w =>
    match session_state w !! key with
    | Some v => ret v w
    | None => raise (mkException "KeyError" key) w
    end.

(** [st.session_state[key] = v]. *)
Definition session_set (key : string) (v : value) : M unit :=
  fun w => (Return tt, with_session_state (<[key := v]> (session_state w)) w).

(** [str(uuid.uuid4())]. *)
Definition uuid4 : M string :=
  fun w => (Return (uuid4_stream w (uuid4_drawn w)),
            with_uuid4_drawn (S (uuid4_drawn w)) w).

(** [datetime.now().isoformat()]. *)
Definition datetime_now_isoformat : M string :=
  fun w => (Return (now_isoformat w), w).

(** [st.error(msg)]. *)
Definition st_error (msg : string) : M unit :=
  fun w => (Return tt, with_page (page w ++ [msg]) w).

(** [st.button(label)]. *)
Definition st_button (label : string) : M bool :=
  fun w => (Return (pressed w label), w).

(** [st.secrets["app"]["user_type"][i]]. *)
Definition secrets_user_type_at (i : nat) : M string :=
  fun w =>
    match secrets_user_type w !! i with
    | Some r => ret r w
    | None => raise (mkException "IndexError" "list index out of range") w
    end.

(** [st.rerun()]: the script stops here and is queued to run again. *)
Definition st_rerun {A} : M A := fun w => (Rerun, w).

(* ===================================================================== *)
(** ** main.py                                                            *)
(* ===================================================================== *)

(** [get_device_id] (main.py, 22-34). *)
Definition get_device_id : M value :=
  present <- session_contains "device_id" ;;
  (if negb present
   then (fresh <- uuid4 ;; session_set "device_id" (VStr fresh))
   else pass) ;;
  session_get "device_id".

(** [verify_device] (main.py, 54-70). *)
Definition verify_device (device_id : string) : M (option device.t) :=
  stored <- ref_get ;;
  let devices := or_empty stored in
  ret (devices !! device_id).

(** [register_device] (main.py, 73-109).  The loop over the registered
    devices compares each one's role with the requested role and, on a
    match, evaluates the expression statement [False]. *)
Definition register_device (device_id user_type password : string) : M bool :=
  try_except
    (stored <- ref_get ;;
     let devices := or_empty stored in
     for_ (values devices)
          (fun device =>
             if String.eqb (device.user_type device) user_type
             then expr_stmt false
             else pass) ;;
     registerd_at <- datetime_now_isoformat ;;
     let devices :=
       <[device_id := device.mk user_type (hash_pasword password) registerd_at]>
         devices in
     ref_set devices ;;
     ret true)
    (fun e =>
       st_error ("デバイス登録エラー: " ++ str e) ;;
       ret false).

(** [authenticate] (main.py, 112-132).  A stored registration always has
    its three keys, so it is truthy whenever it is present. *)
Definition authenticate (device_id password : string) : M bool :=
  device_info <- verify_device device_id ;;
  match device_info with
  | Some info =>
      if String.eqb (device.password info) (hash_pasword password)
      then (session_set "user_type" (VStr (device.user_type info)) ;; ret true)
      else ret false
  | None => ret false
  end.

(** [init_session_state] (main.py, 172-179). *)
Definition init_session_state : M unit :=
  has_logged_in <- session_contains "logged_in" ;;
  (if negb has_logged_in then session_set "logged_in" (VBool false) else pass) ;;
  has_user_type <- session_contains "user_type" ;;
  (if negb has_user_type then session_set "user_type" VNone else pass).

(** *** The record stores

    [WeightDatabase] and the records it returns are declared in
    database.py, which [main] imports.  [main] reads one attribute of a
    record, [timestamp], and calls [get_records()] without bounds. *)

(** Modelled from the spec: a weight record is an identifier, the time of
    the measurement, the weight and a free-text note (database.py is not
    part of the sources).  Times are instants on a linear scale; the
    weight is carried in grams and is not read by [main]. *)
Record WeightRecord := mkWeightRecord {
  id : string;
  timestamp : Z;
  weight : Z;
  note : string
}.

(** [WeightDatabase(user_type)]: a store scoped to one role. *)
Record WeightDatabase := mkWeightDatabase { role : string }.

Section main.

(** [WeightDatabase.get_records()] without bounds, whatever it does to
    the world it runs in. *)
Variable get_records : WeightDatabase -> M (list WeightRecord).

(** The two stores [main] opens (main.py, 210-211). *)
Definition open_databases : M (WeightDatabase * WeightDatabase) :=
  role0 <- secrets_user_type_at 0 ;;
  role1 <- secrets_user_type_at 1 ;;
  ret (mkWeightDatabase role0, mkWeightDatabase role1).

(** The records offered for editing (main.py, 223-232): the list
    comprehension over the logged-in role's store. *)
Definition current_records (db1 db2 : WeightDatabase) (start_date end_date : Z)
  : M (list WeightRecord) :=
  user_type <- session_get "user_type" ;;
  role0 <- secrets_user_type_at 0 ;;
  records <- get_records (if value_eqb user_type (VStr role0) then db1 else db2) ;;
  ret (filter (fun r => (start_date <= timestamp r <= end_date)%Z) records).

End main.

(** The logout button at the end of [main] (main.py, 236-239). *)
Definition main_logout : M unit :=
  clicked <- st_button "ログアウト" ;;
  if clicked
  then (session_set "logged_in" (VBool false) ;;
        session_set "user_type" VNone ;;
        st_rerun)
  else pass.

(* ===================================================================== *)
(** ** Properties                                                         *)
(* ===================================================================== *)

Arguments hash_pasword : simpl never.

(** At most one registration per role. *)
Definition role_unique (m : gmap string device.t) : Prop :=
  forall d1 d2 r1 r2,
    m !! d1 = Some r1 -> m !! d2 = Some r2 ->
    device.user_type r1 = device.user_type r2 -> d1 = d2.

(** The session of a client that is not logged in, as
    [init_session_state] sets it up and the logout button leaves it. *)
Definition logged_out (s : gmap string value) : Prop :=
  s !! "logged_in" = Some (VBool false) /\ s !! "user_type" = Some VNone.

(** The registration [register_device] builds. *)
Definition registration (w : World) (user_type password : string) : device.t :=
  device.mk user_type (hash_pasword password) (now_isoformat w).

(** The message [register_device] draws for a caught exception. *)
Definition registration_error (e : exception) : string :=
  "デバイス登録エラー: " ++ str e.

(** [n] calls of [get_device_id] in a row, with what each returned. *)
Fixpoint get_device_id_times (n : nat) : M (list value) :=
  match n with
  | O => ret []
  | S m =>
      v <- get_device_id ;;
      vs <- get_device_id_times m ;;
      ret (v :: vs)
  end.

(** *** A deployment to evaluate on

    Roles "A" and "B", an empty database that answers, and a browser that
    has not been seen before. *)
Definition sample_uuid4 (n : nat) : string :=
  match n with
  | O => "3b241101-e2bb-4255-8caf-4136c566a962"
  | _ => "9f1c7a50-0d4e-4c8b-b1a2-5e6f7a8b9c0d"
  end.

Definition fresh_world : World :=
  mkWorld None None None ∅ ["A"; "B"] (fun _ => false)
          "2024-05-01T08:30:00.000000" sample_uuid4 0 [].

(** Device "D1" holds role "A" with password "p1". *)
Definition world_D1 : World :=
  with_devices_node
    (Some {[ "D1" := device.mk "A" (hash_pasword "p1") "2024-04-30T21:15:02.118345" ]})
    fresh_world.

(** The same deployment while the backend refuses writes. *)
Definition world_write_refused : World :=
  mkWorld (devices_node world_D1) None
          (Some (mkException "UnavailableError" "503 Service Unavailable"))
          ∅ ["A"; "B"] (fun _ => false)
          "2024-05-01T08:30:00.000000" sample_uuid4 0 [].

(** "D1" logged in as "A", pressing the logout button. *)
Definition world_logout_pressed : World :=
  mkWorld (devices_node world_D1) None None
          (<["user_type" := VStr "A"]>
             (<["logged_in" := VBool true]>
                {[ "device_id" := VStr "D1" ]}))
          ["A"; "B"] (String.eqb "ログアウト")
          "2024-05-01T08:30:00.000000" sample_uuid4 1 [].

(** Three records of role "A" on days 1 to 3, one of role "B". *)
Definition sample_records (r : string) : list WeightRecord :=
  if String.eqb r "A"
  then [ mkWeightRecord "a1" 1 70000 "";
         mkWeightRecord "a2" 2 69500 "";
         mkWeightRecord "a3" 3 69000 "" ]
  else [ mkWeightRecord "b1" 2 58200 "" ].

Definition sample_get_records (db : WeightDatabase) : M (list WeightRecord) :=
  ret (sample_records (role db)).

(* ===================================================================== *)
(** ** The pages: [login_page] and [main]                                 *)
(* ===================================================================== *)

(** [if v:] on a session value. *)
Definition truthy (v : value) : bool :=
  match v with
  | VNone => false
  | VBool b => b
  | VStr s => negb (String.eqb s "")
  end.

(** [f"{v}"]. *)
Definition format_value (v : value) : string :=
  match v with
  | VNone => "None"
  | VBool true => "True"
  | VBool false => "False"
  | VStr s => s
  end.

(** [st.title], [st.write], [st.subheader] and [st.success] draw their
    text on the page. *)
Definition st_title (text : string) : M unit :=
  fun w => (Return tt, with_page (page w ++ [text]) w).

Definition st_write (text : string) : M unit :=
  fun w => (Return tt, with_page (page w ++ [text]) w).

Definition st_subheader (text : string) : M unit :=
  fun w => (Return tt, with_page (page w ++ [text]) w).

Definition st_success (text : string) : M unit :=
  fun w => (Return tt, with_page (page w ++ [text]) w).

(** What the page's inputs hold in this run of the script: the option
    [st.selectbox] returns, the text [st.text_input] returns and the state
    of the prediction checkbox. *)
Record Inputs := mkInputs {
  selectbox_user_type : string;
  text_input_password : string;
  checkbox_prediction : bool
}.

(** The registration form of [login_page], drawn for a device that is
    not registered (main.py, 146-157). *)
Definition registration_form (device_id : string) (inputs : Inputs) : M unit :=
  st_subheader "新規デバイス登録" ;;
  let user_type := selectbox_user_type inputs in
  let password := text_input_password inputs in
  clicked <- st_button "デバイスを登録" ;;
  if clicked
  then (registered <- register_device device_id user_type password ;;
        if registered
        then (st_success "デバイスが登録されました" ;; st_rerun)
        else st_error "デバイス登録に失敗しました")
  else pass.

(** The login form of [login_page], drawn for a registered device
    (main.py, 160-169). *)
Definition login_form (device_id : string) (inputs : Inputs) : M unit :=
  let password := text_input_password inputs in
  clicked <- st_button "ログイン" ;;
  if clicked
  then (authenticated <- authenticate device_id password ;;
        if authenticated
        then (session_set "logged_in" (VBool true) ;;
              st_success "ログインに成功しました" ;;
              st_rerun)
        else st_error "パスワードが正しくありません")
  else pass.

(** The key a dictionary key has once the registry is sent to the
    backend as JSON: a [str] is itself, [None] and the booleans become
    "null", "true" and "false". *)
Definition json_key (v : value) : string :=
  match v with
  | VNone => "null"
  | VBool true => "true"
  | VBool false => "false"
  | VStr s => s
  end.

(** [login_page] (main.py, 135-169).  [get_device_id] is the only writer
    of "device_id" in the session and writes a [str].  Should the session
    hold something else there, the page prints it, [verify_device] reads
    the registry and finds nothing under it (the registry's keys are
    [str]), and the registration form is drawn; a registration from that
    form reaches the backend under the value's JSON key. *)
Definition login_page (inputs : Inputs) : M unit :=
  st_title "体重管理アプリ - ログイン" ;;
  resolved <- get_device_id ;;
  match resolved with
  | VStr device_id =>
      st_write ("デバイスID: " ++ device_id) ;;
      device_info <- verify_device device_id ;;
      match device_info with
      | None => registration_form device_id inputs
      | Some _ => login_form device_id inputs
      end
  | other =>
      st_write ("デバイスID: " ++ format_value other) ;;
      ref_get ;;
      registration_form (json_key other) inputs
  end.

Section pages.

(** The components [main] imports from components.py, database.py and
    visualization.py, each with whatever it does to the world:
    [db.get_records()], [WeightInputForm(WeightDatabase(user_type)).render()],
    [DateRangeSelector.render()],
    [WeightVisualizer(records1, records2, start_date, end_date,
    show_prediction).render()] and
    [WeightRecordEditor(WeightDatabase(user_type), records).render()]. *)
Variable get_records : WeightDatabase -> M (list WeightRecord).
Variable WeightInputForm_render : value -> M unit.
Variable DateRangeSelector_render : M (Z * Z).
Variable WeightVisualizer_render :
  list WeightRecord -> list WeightRecord -> Z -> Z -> bool -> M unit.
Variable WeightRecordEditor_render : value -> list WeightRecord -> M unit.

(** [main] once the session is logged in (main.py, 192-239). *)
Definition main_logged_in (inputs : Inputs) : M unit :=
  st_title "体重管理アプリ" ;;
  shown_user <- session_get "user_type" ;;
  st_write ("ログインユーザー: " ++ format_value shown_user) ;;
  form_user <- session_get "user_type" ;;
  WeightInputForm_render form_user ;;
  let show_prediction := checkbox_prediction inputs in
  dates <- DateRangeSelector_render ;;
  dbs <- open_databases ;;
  records1 <- get_records (fst dbs) ;;
  records2 <- get_records (snd dbs) ;;
  WeightVisualizer_render records1 records2 (fst dates) (snd dates) show_prediction ;;
  editor_user <- session_get "user_type" ;;
  records <- current_records get_records (fst dbs) (snd dbs) (fst dates) (snd dates) ;;
  WeightRecordEditor_render editor_user records ;;
  main_logout.

(** [main] (main.py, 182-239). *)
Definition main (inputs : Inputs) : M unit :=
  init_session_state ;;
  logged_in <- session_get "logged_in" ;;
  if negb (truthy logged_in)
  then login_page inputs
  else main_logged_in inputs.

End pages.

(** The device id [login_page] works with in world [w]: the one the
    session holds, or else the next one [uuid.uuid4()] yields. *)
Definition resolves (w : World) (device_id : string) : Prop :=
  session_state w !! "device_id" = Some (VStr device_id) \/
  (session_state w !! "device_id" = None /\
   device_id = uuid4_stream w (uuid4_drawn w)).

(** Two worlds with the same backend, configuration, clock and buttons. *)
Definition same_backend (w1 w2 : World) : Prop :=
  devices_node w1 = devices_node w2 /\
  get_fault w1 = get_fault w2 /\
  set_fault w1 = set_fault w2 /\
  secrets_user_type w1 = secrets_user_type w2 /\
  pressed w1 = pressed w2 /\
  now_isoformat w1 = now_isoformat w2.

(** A later run of the script over what [w] left, with the button
    [label] pressed and an empty page. *)
Definition pressing (label : string) (w : World) : World :=
  mkWorld (devices_node w) (get_fault w) (set_fault w) (session_state w)
          (secrets_user_type w) (String.eqb label)
          (now_isoformat w) (uuid4_stream w) (uuid4_drawn w) [].

(** "D1" after logging out, pressing the login button. *)
Definition world_login_pressed : World :=
  pressing "ログイン" (snd (main_logout world_logout_pressed)).

(** The user picks role "A" and types "p1". *)
Definition sample_inputs : Inputs := mkInputs "A" "p1" false.

(** A session whose role "C" is not a configured one. *)
Definition world_unknown_role : World :=
  mkWorld (devices_node world_D1) None None
          (<["user_type" := VStr "C"]>
             (<["logged_in" := VBool true]>
                {[ "device_id" := VStr "D9" ]}))
          ["A"; "B"] (fun _ => false)
          "2024-05-01T08:30:00.000000" sample_uuid4 1 [].

(** Components that draw nothing and a date range of days 1 to 2. *)
Definition sample_form_render (user_type : value) : M unit := ret tt.

Definition sample_date_range : M (Z * Z) := ret (1%Z, 2%Z).

Definition sample_visualizer_render
    (records1 records2 : list WeightRecord) (start_date end_date : Z)
    (show_prediction : bool) : M unit := ret tt.

Definition sample_editor_render (user_type : value) (records : list WeightRecord)
  : M unit := ret tt.

(** A lowercase hexadecimal digit. *)
Definition is_lower_hex (c : ascii) : bool :=
  existsb (Ascii.eqb c) (list_ascii_of_string "0123456789abcdef").

(** The same deployment while the backend refuses reads. *)
Definition world_read_refused : World :=
  mkWorld (devices_node world_D1)
          (Some (mkException "UnavailableError" "503 Service Unavailable")) None
          ∅ ["A"; "B"] (fun _ => false)
          "2024-05-01T08:30:00.000000" sample_uuid4 0 [].

(** *** The digest on known inputs

    The test vectors of FIPS 180-4 (one block, two blocks) and the empty
    message, as [hashlib] prints them. *)

Example hash_pasword_abc :
  hash_pasword "abc"
  = "ba7816bf8f01cfea414140de5dae2223b00361a396177a9cb410ff61f20015ad".
Proof. vm_compute. reflexivity. Qed.

Example hash_pasword_empty :
  hash_pasword ""
  = "e3b0c44298fc1c149afbf4c8996fb92427ae41e4649b934ca495991b7852b855".
Proof. vm_compute. reflexivity. Qed.

Example hash_pasword_two_blocks :
  hash_pasword "abcdbcdecdefdefgefghfghighijhijkijkljklmklmnlmnomnopnopq"
  = "248d6a61d20638b8e5c026930c3e6039a33ce45964ff2167f6ecedd419db06c1".
Proof. vm_compute. reflexivity. Qed.

(** *** The primitives *)

Lemma or_empty_default x : or_empty x = default ∅ x.
Proof. destruct x as [d|]; simpl; [|done]. by case_decide; subst. Qed.

Lemma registry_with_devices_node m w :
  registry (with_devices_node (Some m) w) = m.
Proof. reflexivity. Qed.

Lemma registry_with_session_state s w :
  registry (with_session_state s w) = registry w.
Proof. reflexivity. Qed.

Lemma registry_with_page p w : registry (with_page p w) = registry w.
Proof. reflexivity. Qed.

(** The role scan of [register_device] returns normally and changes
    nothing, whatever the registry holds. *)
Lemma role_scan_inert (user_type : string) (l : list device.t) (w : World) :
  for_ l (fun device =>
            if String.eqb (device.user_type device) user_type
            then expr_stmt false else pass) w
  = (Return tt, w).
Proof.
  induction l as [|device l IH]; [done|].
  simpl. unfold bind at 1.
  destruct (String.eqb _ _); simpl; exact IH.
Qed.

(** *** [register_device], case by case *)

Lemma register_device_ok d r p w :
  get_fault w = None -> set_fault w = None ->
  register_device d r p w
  = (Return true,
     with_devices_node (Some (<[d := registration w r p]> (registry w))) w).
Proof.
  intros Hget Hset.
  unfold register_device, try_except, bind, ref_get. rewrite Hget.
  cbn [ret]. rewrite role_scan_inert. unfold datetime_now_isoformat, ref_set.
  rewrite Hset. cbn [ret]. by rewrite or_empty_default.
Qed.

Lemma register_device_read_fault d r p w e :
  get_fault w = Some e ->
  register_device d r p w
  = (Return false, with_page (page w ++ [registration_error e]) w).
Proof.
  intros Hget.
  unfold register_device, try_except, bind, ref_get. by rewrite Hget.
Qed.

Lemma register_device_write_fault d r p w e :
  get_fault w = None -> set_fault w = Some e ->
  register_device d r p w
  = (Return false, with_page (page w ++ [registration_error e]) w).
Proof.
  intros Hget Hset.
  unfold register_device, try_except, bind, ref_get. rewrite Hget.
  cbn [ret]. rewrite role_scan_inert. unfold datetime_now_isoformat, ref_set.
  by rewrite Hset.
Qed.

(** A call that returns [True] ran against a backend answering both the
    read and the write. *)
Lemma register_device_true_inv d r p w w' :
  register_device d r p w = (Return true, w') ->
  get_fault w = None /\ set_fault w = None /\
  w' = with_devices_node (Some (<[d := registration w r p]> (registry w))) w.
Proof.
  intros Hrun.
  destruct (get_fault w) as [e|] eqn:Hget.
  { rewrite (register_device_read_fault _ _ _ _ _ Hget) in Hrun. discriminate. }
  destruct (set_fault w) as [e|] eqn:Hset.
  { rewrite (register_device_write_fault _ _ _ _ _ Hget Hset) in Hrun.
    discriminate. }
  rewrite (register_device_ok _ _ _ _ Hget Hset) in Hrun.
  by inversion Hrun.
Qed.

(** *** [verify_device] and [authenticate], case by case *)

Lemma verify_device_ok d w :
  get_fault w = None -> verify_device d w = (Return (registry w !! d), w).
Proof.
  intros Hget. unfold verify_device, bind, ref_get. rewrite Hget.
  unfold ret. by rewrite or_empty_default.
Qed.

Lemma authenticate_read_fault d p w e :
  get_fault w = Some e -> authenticate d p w = (Raise e, w).
Proof.
  intros Hget. unfold authenticate, verify_device, bind, ref_get.
  by rewrite Hget.
Qed.

Lemma authenticate_match d p w info :
  get_fault w = None -> registry w !! d = Some info ->
  device.password info = hash_pasword p ->
  authenticate d p w
  = (Return true,
     with_session_state
       (<["user_type" := VStr (device.user_type info)]> (session_state w)) w).
Proof.
  intros Hget Hinfo Hpw. unfold authenticate, bind at 1.
  rewrite (verify_device_ok _ _ Hget), Hinfo, Hpw, String.eqb_refl.
  reflexivity.
Qed.

Lemma authenticate_mismatch d p w info :
  get_fault w = None -> registry w !! d = Some info ->
  device.password info <> hash_pasword p ->
  authenticate d p w = (Return false, w).
Proof.
  intros Hget Hinfo Hpw. unfold authenticate, bind at 1.
  rewrite (verify_device_ok _ _ Hget), Hinfo.
  apply String.eqb_neq in Hpw. by rewrite Hpw.
Qed.

Lemma authenticate_unregistered d p w :
  get_fault w = None -> registry w !! d = None ->
  authenticate d p w = (Return false, w).
Proof.
  intros Hget Hinfo. unfold authenticate, bind at 1.
  by rewrite (verify_device_ok _ _ Hget), Hinfo.
Qed.

(** *** [get_device_id], case by case *)

Lemma get_device_id_first w :
  session_state w !! "device_id" = None ->
  get_device_id w
  = (Return (VStr (uuid4_stream w (uuid4_drawn w))),
     with_session_state
       (<["device_id" := VStr (uuid4_stream w (uuid4_drawn w))]> (session_state w))
       (with_uuid4_drawn (S (uuid4_drawn w)) w)).
Proof.
  intros Habs. unfold get_device_id, bind, session_contains.
  rewrite Habs. rewrite bool_decide_eq_false_2 by (intros [? ?]; discriminate).
  simpl. unfold session_get. simpl. by rewrite lookup_insert_eq.
Qed.

Lemma get_device_id_cached w v :
  session_state w !! "device_id" = Some v ->
  get_device_id w = (Return v, w).
Proof.
  intros Hv. unfold get_device_id, bind, session_contains.
  rewrite Hv. rewrite bool_decide_eq_true_2 by eauto.
  simpl. unfold session_get. by rewrite Hv.
Qed.

Lemma get_device_id_times_cached n w v :
  session_state w !! "device_id" = Some v ->
  get_device_id_times n w = (Return (replicate n v), w).
Proof.
  intros Hv. induction n as [|n IH]; [done|].
  simpl. unfold bind at 1. rewrite (get_device_id_cached _ _ Hv).
  unfold bind at 1. by rewrite IH.
Qed.

(** *** The blocks of [main] *)

Lemma open_databases_inv w db1 db2 w' :
  open_databases w = (Return (db1, db2), w') ->
  secrets_user_type w !! 0%nat = Some (role db1) /\
  secrets_user_type w !! 1%nat = Some (role db2) /\ w' = w.
Proof.
  unfold open_databases, bind, secrets_user_type_at, ret.
  destruct (secrets_user_type w !! 0%nat) as [r0|]; [|discriminate].
  destruct (secrets_user_type w !! 1%nat) as [r1|]; [|discriminate].
  intros Hrun. by inversion Hrun.
Qed.

(** A new session starts logged out. *)
Lemma init_session_state_logged_out w :
  session_state w !! "logged_in" = None ->
  session_state w !! "user_type" = None ->
  exists w', init_session_state w = (Return tt, w') /\
             logged_out (session_state w').
Proof.
  intros Hflag Hrole. eexists. split.
  - unfold init_session_state, bind, session_contains.
    rewrite Hflag. rewrite bool_decide_eq_false_2 by (intros [? ?]; discriminate).
    simpl. rewrite lookup_insert_ne by discriminate. rewrite Hrole.
    rewrite bool_decide_eq_false_2 by (intros [? ?]; discriminate).
    reflexivity.
  - split; simpl.
    + by rewrite lookup_insert_ne, lookup_insert_eq.
    + apply lookup_insert_eq.
Qed.

Lemma main_logout_pressed w :
  pressed w "ログアウト" = true ->
  main_logout w
  = (Rerun,
     with_session_state
       (<["user_type" := VNone]> (<["logged_in" := VBool false]> (session_state w)))
       w).
Proof.
  intros Hpressed. unfold main_logout, bind at 1, st_button.
  by rewrite Hpressed.
Qed.

(* ===================================================================== *)
(** ** The claims                                                         *)
(* ===================================================================== *)

(** C1.  When some registered device [holder] already holds role [r] and
    the backend answers, [register_device d r p] for an unregistered [d]
    returns [True] and stores the new registration next to the holder's:
    the role scan rejects nothing, and the registry written back has two
    devices with role [r], so at most one registration per role is not
    kept by registering. *)
Theorem register_device_admits_second_holder
    (w : World) (holder d r p : string) (reg : device.t) :
  registry w !! holder = Some reg ->
  device.user_type reg = r ->
  registry w !! d = None ->
  get_fault w = None -> set_fault w = None ->
  let w' := with_devices_node
              (Some (<[d := registration w r p]> (registry w))) w in
  register_device d r p w = (Return true, w') /\
  registry w' !! d = Some (registration w r p) /\
  registry w' !! holder = Some reg /\
  ~ role_unique (registry w').
Proof.
  intros Hholder Hrole Hnew Hget Hset w'.
  assert (Hne : d <> holder) by congruence.
  assert (Hd : registry w' !! d = Some (registration w r p)).
  { subst w'. rewrite registry_with_devices_node. apply lookup_insert_eq. }
  assert (Hh : registry w' !! holder = Some reg).
  { subst w'. rewrite registry_with_devices_node.
    by rewrite lookup_insert_ne. }
  split; [by apply register_device_ok|].
  split; [exact Hd|]. split; [exact Hh|].
  intros Huniq. apply Hne.
  exact (Huniq d holder _ _ Hd Hh (eq_sym Hrole)).
Qed.

Lemma register_device_admits_second_holder_witness :
  let w' := with_devices_node
              (Some (<["D2" := registration world_D1 "A" "p2"]> (registry world_D1)))
              world_D1 in
  role_unique (registry world_D1) /\
  register_device "D2" "A" "p2" world_D1 = (Return true, w') /\
  registry w' !! "D2" = Some (registration world_D1 "A" "p2") /\
  registry w' !! "D1"
    = Some (device.mk "A" (hash_pasword "p1") "2024-04-30T21:15:02.118345") /\
  ~ role_unique (registry w').
Proof.
  split.
  - intros d1 d2 r1 r2 H1 H2 _.
    change (registry world_D1)
      with ({[ "D1" := device.mk "A" (hash_pasword "p1") "2024-04-30T21:15:02.118345" ]}
            : gmap string device.t) in H1, H2.
    apply lookup_singleton_Some in H1 as [<- _].
    by apply lookup_singleton_Some in H2 as [<- _].
  - apply (register_device_admits_second_holder world_D1 "D1" "D2" "A" "p2"
             (device.mk "A" (hash_pasword "p1") "2024-04-30T21:15:02.118345"));
      reflexivity.
Defined.

(** C2.  After [register_device device_id role password] has returned
    [True], [authenticate device_id password], run in the world the
    registration left, returns [True], and [authenticate device_id p']
    returns [False] for every [p'] whose digest differs from that of
    [password]. *)
Theorem register_then_authenticate
    (w w1 : World) (device_id role password : string) :
  register_device device_id role password w = (Return true, w1) ->
  fst (authenticate device_id password w1) = Return true /\
  forall p', hash_pasword p' <> hash_pasword password ->
             fst (authenticate device_id p' w1) = Return false.
Proof.
  intros Hreg.
  destruct (register_device_true_inv _ _ _ _ _ Hreg) as (Hget & _ & ->).
  set (w1 := with_devices_node _ w).
  assert (Hget1 : get_fault w1 = None) by exact Hget.
  assert (Hinfo : registry w1 !! device_id
                  = Some (registration w role password)).
  { subst w1. rewrite registry_with_devices_node. apply lookup_insert_eq. }
  split.
  - by rewrite (authenticate_match _ _ _ _ Hget1 Hinfo eq_refl).
  - intros p' Hp'.
    rewrite (authenticate_mismatch _ _ _ _ Hget1 Hinfo); [done|].
    simpl. congruence.
Qed.

Lemma register_then_authenticate_witness :
  fst (authenticate "D1" "p1" (snd (register_device "D1" "A" "p1" fresh_world)))
  = Return true /\
  fst (authenticate "D1" "wrong" (snd (register_device "D1" "A" "p1" fresh_world)))
  = Return false.
Proof.
  destruct (register_then_authenticate fresh_world
              (snd (register_device "D1" "A" "p1" fresh_world))
              "D1" "A" "p1") as [Hsame Hother].
  - reflexivity.
  - split; [exact Hsame|]. apply Hother.
    intros Hdigest. vm_compute in Hdigest. discriminate Hdigest.
Defined.

(** C3, as amended.  Against a backend that answers the read of the
    registry, [authenticate device_id password] returns [True] exactly
    when [device_id] has a registration whose stored digest is the digest
    of [password]; it then leaves that registration's role under
    "user_type" in the session, and in every other case it returns
    [False].  (Without that condition the claim fails: see
    [authenticate_read_refused_counterexample] below.) *)
Theorem authenticate_iff_digest_match (w : World) (device_id password : string) :
  get_fault w = None ->
  (fst (authenticate device_id password w) = Return true <->
   exists info, registry w !! device_id = Some info /\
                device.password info = hash_pasword password) /\
  (forall info, registry w !! device_id = Some info ->
                device.password info = hash_pasword password ->
     authenticate device_id password w
     = (Return true,
        with_session_state
          (<["user_type" := VStr (device.user_type info)]> (session_state w)) w)) /\
  (~ (exists info, registry w !! device_id = Some info /\
                   device.password info = hash_pasword password) ->
   authenticate device_id password w = (Return false, w)).
Proof.
  intros Hget.
  assert (Hno :
    ~ (exists info, registry w !! device_id = Some info /\
                    device.password info = hash_pasword password) ->
    authenticate device_id password w = (Return false, w)).
  { intros Hnone.
    destruct (registry w !! device_id) as [info|] eqn:Hinfo.
    - apply (authenticate_mismatch _ _ _ info); [done..|].
      intros Hpw. apply Hnone. by exists info.
    - by apply authenticate_unregistered. }
  split; [split|split].
  - intros Htrue.
    destruct (registry w !! device_id) as [info|] eqn:Hinfo.
    + destruct (decide (device.password info = hash_pasword password)) as [Hpw|Hpw].
      * by exists info.
      * rewrite (authenticate_mismatch _ _ _ _ Hget Hinfo Hpw) in Htrue.
        discriminate.
    + rewrite (authenticate_unregistered _ _ _ Hget Hinfo) in Htrue.
      discriminate.
  - intros (info & Hinfo & Hpw).
    by rewrite (authenticate_match _ _ _ _ Hget Hinfo Hpw).
  - intros info Hinfo Hpw. by apply authenticate_match.
  - exact Hno.
Qed.

Lemma authenticate_iff_digest_match_witness :
  authenticate "D1" "p1" world_D1
  = (Return true,
     with_session_state (<["user_type" := VStr "A"]> (session_state world_D1))
                        world_D1) /\
  authenticate "D1" "wrong" world_D1 = (Return false, world_D1) /\
  authenticate "D2" "p1" world_D1 = (Return false, world_D1).
Proof.
  split; [|split].
  - apply (proj1 (proj2 (authenticate_iff_digest_match world_D1 "D1" "p1" eq_refl))
             (device.mk "A" (hash_pasword "p1") "2024-04-30T21:15:02.118345"));
      reflexivity.
  - apply (proj2 (proj2 (authenticate_iff_digest_match world_D1 "D1" "wrong" eq_refl))).
    intros (info & Hinfo & Hpw).
    assert (Hd : info = device.mk "A" (hash_pasword "p1") "2024-04-30T21:15:02.118345").
    { assert (H : registry world_D1 !! "D1"
                  = Some (device.mk "A" (hash_pasword "p1") "2024-04-30T21:15:02.118345"))
        by reflexivity.
      congruence. }
    subst info. vm_compute in Hpw. discriminate Hpw.
  - apply (proj2 (proj2 (authenticate_iff_digest_match world_D1 "D2" "p1" eq_refl))).
    intros (info & Hinfo & _).
    assert (H : registry world_D1 !! "D2" = None) by reflexivity.
    congruence.
Defined.

(** C3 as stated, without the condition on the backend, fails.  While the
    backend refuses reads, "D1" has a registration whose digest is that of
    "p1", yet [authenticate "D1" "p1"] does not return [True]; and "D9"
    has no registration, yet [authenticate "D9" "p1"] does not return
    [False].  Both calls end in the backend's exception, which
    [authenticate] does not catch. *)
Lemma authenticate_read_refused_counterexample :
  (exists info, registry world_read_refused !! "D1" = Some info /\
                device.password info = hash_pasword "p1") /\
  authenticate "D1" "p1" world_read_refused
  = (Raise (mkException "UnavailableError" "503 Service Unavailable"),
     world_read_refused) /\
  fst (authenticate "D1" "p1" world_read_refused) <> Return true /\
  registry world_read_refused !! "D9" = None /\
  authenticate "D9" "p1" world_read_refused
  = (Raise (mkException "UnavailableError" "503 Service Unavailable"),
     world_read_refused) /\
  fst (authenticate "D9" "p1" world_read_refused) <> Return false.
Proof.
  assert (Hraise : forall d p,
    authenticate d p world_read_refused
    = (Raise (mkException "UnavailableError" "503 Service Unavailable"),
       world_read_refused)).
  { intros d p. by apply authenticate_read_fault. }
  split; [|split; [|split; [|split; [|split]]]].
  - exists (device.mk "A" (hash_pasword "p1") "2024-04-30T21:15:02.118345").
    split; reflexivity.
  - apply Hraise.
  - rewrite Hraise. intros Heq. discriminate Heq.
  - reflexivity.
  - apply Hraise.
  - rewrite Hraise. intros Heq. discriminate Heq.
Qed.

(** C4.  [register_device] always returns a boolean to its caller, never
    an exception; and when the backend write fails the value returned is
    [False], with the registry as it was. *)
Theorem register_device_never_raises (w : World) (device_id role password : string) :
  (exists b w', register_device device_id role password w = (Return b, w')) /\
  (set_fault w <> None ->
   exists w', register_device device_id role password w = (Return false, w') /\
              devices_node w' = devices_node w).
Proof.
  destruct (get_fault w) as [e|] eqn:Hget.
  { rewrite (register_device_read_fault _ _ _ _ _ Hget). split; eauto. }
  destruct (set_fault w) as [e|] eqn:Hset.
  { rewrite (register_device_write_fault _ _ _ _ _ Hget Hset). split; eauto. }
  rewrite (register_device_ok _ _ _ _ Hget Hset). split; [eauto|done].
Qed.

Lemma register_device_never_raises_witness :
  exists w', register_device "D2" "B" "p2" world_write_refused = (Return false, w') /\
             devices_node w' = devices_node world_write_refused.
Proof.
  apply (proj2 (register_device_never_raises world_write_refused "D2" "B" "p2")).
  discriminate.
Defined.

(** C5.  Registering an already registered [device_id] again, with a new
    role and password, returns [True] (the backend answering) and leaves
    under [device_id] the new role, the new digest and the new
    registration time in place of the old ones; the other entries and
    the set of registered devices are as before. *)
Theorem reregister_overwrites
    (w : World) (device_id role' password' : string) (old : device.t) :
  registry w !! device_id = Some old ->
  get_fault w = None -> set_fault w = None ->
  exists w', register_device device_id role' password' w = (Return true, w') /\
             registry w' !! device_id
             = Some (device.mk role' (hash_pasword password') (now_isoformat w)) /\
             registry w' = <[device_id := registration w role' password']> (registry w) /\
             dom (registry w') = dom (registry w).
Proof.
  intros Hold Hget Hset. eexists. split; [by apply register_device_ok|].
  rewrite registry_with_devices_node.
  split; [apply lookup_insert_eq|]. split; [done|].
  rewrite dom_insert_L.
  apply subseteq_union_1_L, singleton_subseteq_l, elem_of_dom. eauto.
Qed.

Lemma reregister_overwrites_witness :
  exists w', register_device "D1" "B" "p2" world_D1 = (Return true, w') /\
             registry w' !! "D1"
             = Some (device.mk "B" (hash_pasword "p2") "2024-05-01T08:30:00.000000") /\
             registry w' = <["D1" := registration world_D1 "B" "p2"]> (registry world_D1) /\
             dom (registry w') = dom (registry world_D1).
Proof.
  apply (reregister_overwrites world_D1 "D1" "B" "p2"
           (device.mk "A" (hash_pasword "p1") "2024-04-30T21:15:02.118345"));
    reflexivity.
Defined.

(** C8.  A successful [register_device device_id ...] leaves every other
    device's registration as it was. *)
Theorem register_device_frame
    (w w' : World) (device_id role password other : string) :
  register_device device_id role password w = (Return true, w') ->
  other <> device_id ->
  registry w' !! other = registry w !! other.
Proof.
  intros Hreg Hne.
  destruct (register_device_true_inv _ _ _ _ _ Hreg) as (_ & _ & ->).
  rewrite registry_with_devices_node. by rewrite lookup_insert_ne.
Qed.

Lemma register_device_frame_witness :
  registry (snd (register_device "D2" "B" "p2" world_D1)) !! "D1"
  = registry world_D1 !! "D1".
Proof.
  apply (register_device_frame world_D1 _ "D2" "B" "p2" "D1").
  - reflexivity.
  - discriminate.
Defined.

(** C9.  When [authenticate] returns [False] nothing has changed: the
    session, and "user_type" in it, are as they were before the call. *)
Theorem authenticate_failure_keeps_session
    (w w' : World) (device_id password : string) :
  authenticate device_id password w = (Return false, w') ->
  w' = w /\
  session_state w' = session_state w /\
  session_state w' !! "user_type" = session_state w !! "user_type".
Proof.
  intros Hrun.
  assert (Hw : w' = w); [|by subst].
  destruct (get_fault w) as [e|] eqn:Hget.
  { rewrite (authenticate_read_fault _ _ _ _ Hget) in Hrun. discriminate. }
  destruct (registry w !! device_id) as [info|] eqn:Hinfo.
  - destruct (decide (device.password info = hash_pasword password)) as [Hpw|Hpw].
    + rewrite (authenticate_match _ _ _ _ Hget Hinfo Hpw) in Hrun. discriminate.
    + rewrite (authenticate_mismatch _ _ _ _ Hget Hinfo Hpw) in Hrun. congruence.
  - rewrite (authenticate_unregistered _ _ _ Hget Hinfo) in Hrun. congruence.
Qed.

Lemma authenticate_failure_keeps_session_witness :
  snd (authenticate "D1" "wrong" world_logout_pressed) = world_logout_pressed /\
  session_state (snd (authenticate "D1" "wrong" world_logout_pressed))
  = session_state world_logout_pressed /\
  session_state (snd (authenticate "D1" "wrong" world_logout_pressed)) !! "user_type"
  = session_state world_logout_pressed !! "user_type".
Proof.
  apply (authenticate_failure_keeps_session world_logout_pressed _ "D1" "wrong").
  vm_compute. reflexivity.
Defined.

(** C10.  In a session without "device_id", the first [get_device_id]
    draws an identifier, stores it in the session and returns it; every
    later call in that session, however many there are, returns the same
    identifier and changes nothing. *)
Theorem get_device_id_idempotent (w : World) :
  session_state w !! "device_id" = None ->
  let fresh := VStr (uuid4_stream w (uuid4_drawn w)) in
  let w1 := with_session_state (<["device_id" := fresh]> (session_state w))
                               (with_uuid4_drawn (S (uuid4_drawn w)) w) in
  get_device_id w = (Return fresh, w1) /\
  (forall n, get_device_id_times n w1 = (Return (replicate n fresh), w1)) /\
  (forall w2, session_state w2 !! "device_id" = Some fresh ->
              get_device_id w2 = (Return fresh, w2)).
Proof.
  intros Habs fresh w1.
  split; [by apply get_device_id_first|].
  split.
  - intros n. apply get_device_id_times_cached.
    subst w1. simpl. apply lookup_insert_eq.
  - intros w2 Hw2. by apply get_device_id_cached.
Qed.

Lemma get_device_id_idempotent_witness :
  let fresh := VStr "3b241101-e2bb-4255-8caf-4136c566a962" in
  let w1 := with_session_state (<["device_id" := fresh]> (session_state fresh_world))
                               (with_uuid4_drawn 1 fresh_world) in
  get_device_id fresh_world = (Return fresh, w1) /\
  (forall n, get_device_id_times n w1 = (Return (replicate n fresh), w1)) /\
  (forall w2, session_state w2 !! "device_id" = Some fresh ->
              get_device_id w2 = (Return fresh, w2)).
Proof.
  apply (get_device_id_idempotent fresh_world). reflexivity.
Defined.

(** C6.  With [db1] and [db2] the stores [main] opened for the two
    configured roles and the logged-in user's role one of the two, the
    list offered for editing is the list [get_records()] returns for that
    role, in its order, cut down to the records whose timestamp [t] has
    [start_date <= t <= end_date]: a record is in it exactly when it is
    one of the role's records and its timestamp is within the two bounds,
    either bound included. *)
Theorem current_records_in_range
    (get_records : WeightDatabase -> M (list WeightRecord))
    (w w' : World) (db1 db2 : WeightDatabase) (user_type : string)
    (records : list WeightRecord) (start_date end_date : Z) :
  open_databases w = (Return (db1, db2), w) ->
  session_state w !! "user_type" = Some (VStr user_type) ->
  user_type = role db1 \/ user_type = role db2 ->
  get_records (mkWeightDatabase user_type) w = (Return records, w') ->
  current_records get_records db1 db2 start_date end_date w
  = (Return (filter (fun r => (start_date <= timestamp r <= end_date)%Z) records), w') /\
  forall r,
    r ∈ filter (fun r => (start_date <= timestamp r <= end_date)%Z) records <->
    r ∈ records /\ (start_date <= timestamp r)%Z /\ (timestamp r <= end_date)%Z.
Proof.
  intros Hopen Hsession Hrole Hrecords.
  destruct (open_databases_inv _ _ _ _ Hopen) as (Hr0 & _ & _).
  split.
  - unfold current_records, bind at 1, session_get. rewrite Hsession.
    cbn [ret]. unfold bind at 1, secrets_user_type_at. rewrite Hr0.
    cbn [ret value_eqb].
    assert (Hdb : (if String.eqb user_type (role db1) then db1 else db2)
                  = mkWeightDatabase user_type).
    { destruct (String.eqb user_type (role db1)) eqn:Heq.
      - apply String.eqb_eq in Heq. subst user_type. by destruct db1.
      - apply String.eqb_neq in Heq.
        destruct Hrole as [->| ->]; [done|]. by destruct db2. }
    unfold bind. by rewrite Hdb, Hrecords.
  - intros r. rewrite list_elem_of_filter. tauto.
Qed.

Lemma current_records_in_range_witness :
  current_records sample_get_records
                  (mkWeightDatabase "A") (mkWeightDatabase "B") 1 2 world_logout_pressed
  = (Return (filter (fun r => (1 <= timestamp r <= 2)%Z) (sample_records "A")),
     world_logout_pressed) /\
  forall r,
    r ∈ filter (fun r => (1 <= timestamp r <= 2)%Z) (sample_records "A") <->
    r ∈ sample_records "A" /\ (1 <= timestamp r)%Z /\ (timestamp r <= 2)%Z.
Proof.
  apply (current_records_in_range sample_get_records
           world_logout_pressed world_logout_pressed
           (mkWeightDatabase "A") (mkWeightDatabase "B") "A");
    [reflexivity | reflexivity | by left | reflexivity].
Defined.

(** C7.  Pressing the logout button, in particular when logged in, sets
    "logged_in" to [False] and "user_type" to [None] in the session, which
    is the logged-out state again, and halts the script for a rerun;
    nothing else in the session changes. *)
Theorem main_logout_clears_session (w : World) :
  pressed w "ログアウト" = true ->
  exists w',
    main_logout w = (Rerun, w') /\
    session_state w' !! "logged_in" = Some (VBool false) /\
    session_state w' !! "user_type" = Some VNone /\
    logged_out (session_state w') /\
    forall key, key <> "logged_in" -> key <> "user_type" ->
                session_state w' !! key = session_state w !! key.
Proof.
  intros Hpressed. eexists. split; [by apply main_logout_pressed|].
  simpl.
  assert (Hflag : (<["user_type" := VNone]>
                     (<["logged_in" := VBool false]> (session_state w)))
                  !! "logged_in" = Some (VBool false))
    by (by rewrite lookup_insert_ne, lookup_insert_eq).
  assert (Hrole : (<["user_type" := VNone]>
                     (<["logged_in" := VBool false]> (session_state w)))
                  !! "user_type" = Some VNone)
    by apply lookup_insert_eq.
  repeat split; try done.
  intros key Hk1 Hk2. by rewrite !lookup_insert_ne.
Qed.

Lemma main_logout_clears_session_witness :
  session_state world_logout_pressed !! "logged_in" = Some (VBool true) /\
  exists w',
    main_logout world_logout_pressed = (Rerun, w') /\
    session_state w' !! "logged_in" = Some (VBool false) /\
    session_state w' !! "user_type" = Some VNone /\
    logged_out (session_state w') /\
    forall key, key <> "logged_in" -> key <> "user_type" ->
                session_state w' !! key = session_state world_logout_pressed !! key.
Proof.
  split; [reflexivity|].
  apply (main_logout_clears_session world_logout_pressed). reflexivity.
Defined.

(* ===================================================================== *)
(** ** Further properties of the registry functions                       *)
(* ===================================================================== *)

(** *** The shape of a digest *)

Lemma be_bytes_length n x : length (hashlib.be_bytes n x) = n.
Proof. induction n as [|n IH]; simpl; [done|]. by rewrite IH. Qed.

Lemma be_bytes_range n x :
  Forall (fun b => (0 <= b < 256)%Z) (hashlib.be_bytes n x).
Proof.
  induction n as [|n IH]; simpl; constructor; [|done].
  change 255%Z with (Z.ones 8). rewrite Z.land_ones by lia.
  apply Z.mod_pos_bound. lia.
Qed.

Lemma hex_of_bytes_length bs :
  String.length (hashlib.hex_of_bytes bs) = (2 * length bs)%nat.
Proof. induction bs as [|b bs IH]; simpl; [done|]. rewrite IH. lia. Qed.

Lemma hex_digit_lower d :
  (0 <= d < 16)%Z -> is_lower_hex (hashlib.hex_digit d) = true.
Proof.
  intros Hd.
  assert (Hcases : In d (map Z.of_nat (seq 0 16))).
  { replace d with (Z.of_nat (Z.to_nat d)) by lia.
    apply in_map, in_seq. lia. }
  simpl in Hcases.
  repeat (destruct Hcases as [<-|Hcases]; [reflexivity|]).
  destruct Hcases.
Qed.

Lemma hex_of_bytes_lower bs :
  Forall (fun b => (0 <= b < 256)%Z) bs ->
  forallb is_lower_hex (list_ascii_of_string (hashlib.hex_of_bytes bs)) = true.
Proof.
  induction 1 as [|b bs Hb _ IH]; [done|].
  cbn [hashlib.hex_of_bytes list_ascii_of_string forallb].
  rewrite IH, !hex_digit_lower; [done| |].
  - change 15%Z with (Z.ones 4). rewrite Z.land_ones by lia.
    apply Z.mod_pos_bound. lia.
  - rewrite Z.shiftr_div_pow2 by lia. change (2 ^ 4)%Z with 16%Z.
    split; [apply Z.div_pos; lia|]. apply Z.div_lt_upper_bound; lia.
Qed.

Lemma words_bytes_length h :
  length (flat_map (hashlib.be_bytes 4) h) = (4 * length h)%nat.
Proof.
  induction h as [|x h IH]; [done|].
  cbn [flat_map length]. rewrite length_app, be_bytes_length, IH. lia.
Qed.

Lemma words_bytes_range h :
  Forall (fun b => (0 <= b < 256)%Z) (flat_map (hashlib.be_bytes 4) h).
Proof.
  induction h as [|x h IH]; [constructor|].
  cbn [flat_map]. apply Forall_app. split; [apply be_bytes_range|done].
Qed.

Lemma compress_length h block :
  length h = 8%nat -> length (hashlib.compress h block) = 8%nat.
Proof.
  intros Hh. unfold hashlib.compress.
  rewrite length_map, length_combine, Hh. reflexivity.
Qed.

Lemma blocks_length n h bs :
  length h = 8%nat -> length (hashlib.blocks n h bs) = 8%nat.
Proof.
  revert h bs. induction n as [|n IH]; intros h bs Hh; [done|].
  simpl. apply IH. by apply compress_length.
Qed.

Lemma sha256_length data : length (hashlib.sha256 data) = 8%nat.
Proof. unfold hashlib.sha256. by apply blocks_length. Qed.

(** X1.  Whatever the password, [hash_pasword] returns 64 characters, each
    a lowercase hexadecimal digit. *)
Theorem hash_pasword_shape (password : string) :
  String.length (hash_pasword password) = 64%nat /\
  forallb is_lower_hex (list_ascii_of_string (hash_pasword password)) = true.
Proof.
  unfold hash_pasword, hashlib.hexdigest. split.
  - rewrite hex_of_bytes_length, words_bytes_length, sha256_length. reflexivity.
  - apply hex_of_bytes_lower, words_bytes_range.
Qed.

(** *** Registering and looking up *)

(** X2.  What a successful [register_device] stored is what
    [verify_device] then returns for that device: the role asked for, the
    digest of the password and the time of the registration. *)
Theorem register_then_verify (w w1 : World) (device_id role password : string) :
  register_device device_id role password w = (Return true, w1) ->
  verify_device device_id w1
  = (Return (Some (device.mk role (hash_pasword password) (now_isoformat w))), w1).
Proof.
  intros Hreg.
  destruct (register_device_true_inv _ _ _ _ _ Hreg) as (Hget & _ & ->).
  rewrite verify_device_ok by exact Hget.
  rewrite registry_with_devices_node. by rewrite lookup_insert_eq.
Qed.

Lemma register_then_verify_witness :
  verify_device "D1" (snd (register_device "D1" "A" "p1" fresh_world))
  = (Return (Some (device.mk "A" (hash_pasword "p1") "2024-05-01T08:30:00.000000")),
     snd (register_device "D1" "A" "p1" fresh_world)).
Proof.
  apply (register_then_verify fresh_world _ "D1" "A" "p1"). reflexivity.
Defined.

(** X3.  With nothing stored under "devices" yet and the backend
    answering, every device is unregistered: [verify_device] returns
    [None], [authenticate] returns [False] for every password, and
    [register_device] writes a registry holding the new device alone. *)
Theorem empty_database (w : World) (device_id role password : string) :
  devices_node w = None ->
  get_fault w = None -> set_fault w = None ->
  verify_device device_id w = (Return None, w) /\
  authenticate device_id password w = (Return false, w) /\
  register_device device_id role password w
  = (Return true,
     with_devices_node (Some {[ device_id := registration w role password ]}) w).
Proof.
  intros Hnode Hget Hset.
  assert (Hreg : registry w = ∅) by (unfold registry; by rewrite Hnode).
  assert (Hnone : registry w !! device_id = None) by (by rewrite Hreg).
  split; [|split].
  - by rewrite verify_device_ok, Hnone.
  - by apply authenticate_unregistered.
  - rewrite register_device_ok by done. by rewrite Hreg, insert_empty.
Qed.

Lemma empty_database_witness :
  verify_device "D1" fresh_world = (Return None, fresh_world) /\
  authenticate "D1" "p1" fresh_world = (Return false, fresh_world) /\
  register_device "D1" "A" "p1" fresh_world
  = (Return true,
     with_devices_node (Some {[ "D1" := registration fresh_world "A" "p1" ]})
                       fresh_world).
Proof.
  apply (empty_database fresh_world "D1" "A" "p1"); reflexivity.
Defined.

(** X4.  A backend read that fails is not caught by [verify_device] nor
    by [authenticate]: both end in the backend's exception, raised to the
    caller, and change nothing. *)
Theorem read_fault_propagates
    (w : World) (device_id password : string) (e : exception) :
  get_fault w = Some e ->
  verify_device device_id w = (Raise e, w) /\
  authenticate device_id password w = (Raise e, w).
Proof.
  intros Hget. split.
  - unfold verify_device, bind, ref_get. by rewrite Hget.
  - by apply authenticate_read_fault.
Qed.

Lemma read_fault_propagates_witness :
  verify_device "D1" world_read_refused
  = (Raise (mkException "UnavailableError" "503 Service Unavailable"),
     world_read_refused) /\
  authenticate "D1" "p1" world_read_refused
  = (Raise (mkException "UnavailableError" "503 Service Unavailable"),
     world_read_refused).
Proof.
  apply (read_fault_propagates world_read_refused "D1" "p1"). reflexivity.
Defined.

(** X5.  When the backend raises [e], on the read or (the read answered,
    over a registry of registrations) on the write, [register_device]
    returns [False] and its one effect is to draw the error message that
    ends in [str(e)]: the registry and the session are as before. *)
Theorem register_device_failure
    (w : World) (device_id role password : string) (e : exception) :
  get_fault w = Some e \/ (get_fault w = None /\ set_fault w = Some e) ->
  register_device device_id role password w
  = (Return false, with_page (page w ++ [("デバイス登録エラー: " ++ str e)%string]) w) /\
  devices_node (snd (register_device device_id role password w)) = devices_node w /\
  session_state (snd (register_device device_id role password w)) = session_state w.
Proof.
  intros [Hget | [Hget Hset]].
  - by rewrite (register_device_read_fault _ _ _ _ e).
  - by rewrite (register_device_write_fault _ _ _ _ e).
Qed.

Lemma register_device_failure_witness :
  register_device "D2" "B" "p2" world_write_refused
  = (Return false,
     with_page (page world_write_refused
                ++ [("デバイス登録エラー: " ++ "503 Service Unavailable")%string])
               world_write_refused) /\
  devices_node (snd (register_device "D2" "B" "p2" world_write_refused))
  = devices_node world_write_refused /\
  session_state (snd (register_device "D2" "B" "p2" world_write_refused))
  = session_state world_write_refused.
Proof.
  apply (register_device_failure world_write_refused "D2" "B" "p2"
           (mkException "UnavailableError" "503 Service Unavailable")).
  right. by split.
Defined.

Lemma register_device_session d r p w :
  session_state (snd (register_device d r p w)) = session_state w.
Proof.
  destruct (get_fault w) as [e|] eqn:Hget.
  { by rewrite (register_device_read_fault _ _ _ _ e). }
  destruct (set_fault w) as [e|] eqn:Hset.
  { by rewrite (register_device_write_fault _ _ _ _ e). }
  by rewrite register_device_ok.
Qed.

(** X6.  [register_device] never writes to the session, whether it
    succeeds or fails: in particular it sets neither "logged_in" nor
    "user_type", and what the session held under any key it still holds. *)
Theorem register_device_keeps_session
    (w : World) (device_id role password : string) :
  session_state (snd (register_device device_id role password w))
  = session_state w /\
  forall key, session_state (snd (register_device device_id role password w)) !! key
              = session_state w !! key.
Proof.
  split; [apply register_device_session|].
  intros key. by rewrite register_device_session.
Qed.

(** X7.  When no other device holds role [role], a successful
    [register_device device_id role ...] keeps a registry with at most one
    registration per role in that state. *)
Theorem register_device_free_role
    (w w' : World) (device_id role password : string) :
  role_unique (registry w) ->
  (forall other reg, other <> device_id -> registry w !! other = Some reg ->
                     device.user_type reg <> role) ->
  register_device device_id role password w = (Return true, w') ->
  role_unique (registry w').
Proof.
  intros Huniq Hfree Hreg.
  destruct (register_device_true_inv _ _ _ _ _ Hreg) as (_ & _ & ->).
  rewrite registry_with_devices_node.
  intros d1 d2 r1 r2 H1 H2 Hsame.
  destruct (decide (d1 = device_id)) as [->|Hd1];
    destruct (decide (d2 = device_id)) as [->|Hd2]; [done| | |].
  - rewrite lookup_insert_eq in H1. rewrite lookup_insert_ne in H2 by done.
    inversion H1; subst r1. simpl in Hsame.
    by destruct (Hfree d2 r2 Hd2 H2).
  - rewrite lookup_insert_eq in H2. rewrite lookup_insert_ne in H1 by done.
    inversion H2; subst r2. simpl in Hsame.
    by destruct (Hfree d1 r1 Hd1 H1).
  - rewrite lookup_insert_ne in H1, H2 by done. by apply (Huniq d1 d2 r1 r2).
Qed.

Lemma register_device_free_role_witness :
  role_unique (registry (snd (register_device "D2" "B" "p2" world_D1))).
Proof.
  apply (register_device_free_role world_D1 _ "D2" "B" "p2").
  - intros d1 d2 r1 r2 H1 H2 _.
    change (registry world_D1)
      with ({[ "D1" := device.mk "A" (hash_pasword "p1") "2024-04-30T21:15:02.118345" ]}
            : gmap string device.t) in H1, H2.
    apply lookup_singleton_Some in H1 as [<- _].
    by apply lookup_singleton_Some in H2 as [<- _].
  - intros other reg _ Hother.
    change (registry world_D1)
      with ({[ "D1" := device.mk "A" (hash_pasword "p1") "2024-04-30T21:15:02.118345" ]}
            : gmap string device.t) in Hother.
    apply lookup_singleton_Some in Hother as [_ <-]. discriminate.
  - reflexivity.
Defined.

(** *** The session *)

Lemma with_session_state_id w : with_session_state (session_state w) w = w.
Proof. by destruct w. Qed.

(** What [init_session_state] leaves in the session. *)
Lemma init_session_state_run w :
  let s1 := match session_state w !! "logged_in" with
            | Some _ => session_state w
            | None => <["logged_in" := VBool false]> (session_state w)
            end in
  let s2 := match s1 !! "user_type" with
            | Some _ => s1
            | None => <["user_type" := VNone]> s1
            end in
  init_session_state w = (Return tt, with_session_state s2 w).
Proof.
  unfold init_session_state, bind, session_contains.
  destruct (session_state w !! "logged_in") as [flag|] eqn:Hflag.
  - rewrite bool_decide_eq_true_2 by eauto. cbn [negb pass ret].
    destruct (session_state w !! "user_type") as [r|] eqn:Hrole.
    + rewrite bool_decide_eq_true_2 by eauto. cbn [negb pass ret].
      by rewrite with_session_state_id.
    + rewrite bool_decide_eq_false_2 by (intros [? ?]; discriminate).
      reflexivity.
  - rewrite bool_decide_eq_false_2 by (intros [? ?]; discriminate).
    cbn [negb session_set session_state with_session_state].
    destruct (<["logged_in" := VBool false]> (session_state w) !! "user_type")
      as [r|] eqn:Hrole.
    + rewrite bool_decide_eq_true_2 by eauto. reflexivity.
    + rewrite bool_decide_eq_false_2 by (intros [? ?]; discriminate).
      reflexivity.
Qed.

(** X8.  [init_session_state] always returns; afterwards "logged_in" and
    "user_type" are in the session, every value that was in the session
    is still there (a login survives the rerun of the script), nothing
    outside the session has changed, and running it once more changes
    nothing. *)
Theorem init_session_state_keeps (w : World) :
  exists w',
    init_session_state w = (Return tt, w') /\
    is_Some (session_state w' !! "logged_in") /\
    is_Some (session_state w' !! "user_type") /\
    (forall key v, session_state w !! key = Some v ->
                   session_state w' !! key = Some v) /\
    w' = with_session_state (session_state w') w /\
    init_session_state w' = (Return tt, w').
Proof.
  pose proof (init_session_state_run w) as Hrun. cbv zeta in Hrun.
  set (s1 := match session_state w !! "logged_in" with
             | Some _ => session_state w
             | None => <["logged_in" := VBool false]> (session_state w)
             end) in Hrun.
  set (s2 := match s1 !! "user_type" with
             | Some _ => s1
             | None => <["user_type" := VNone]> s1
             end) in Hrun.
  assert (Hflag1 : is_Some (s1 !! "logged_in")).
  { subst s1. destruct (session_state w !! "logged_in") eqn:H; [by rewrite H|].
    by rewrite lookup_insert_eq. }
  assert (Hflag2 : is_Some (s2 !! "logged_in")).
  { subst s2. destruct (s1 !! "user_type"); [done|].
    by rewrite lookup_insert_ne. }
  assert (Hrole2 : is_Some (s2 !! "user_type")).
  { subst s2. destruct (s1 !! "user_type") eqn:H; [by rewrite H|].
    by rewrite lookup_insert_eq. }
  assert (Hkeep1 : forall key v, session_state w !! key = Some v -> s1 !! key = Some v).
  { intros key v Hv. subst s1.
    destruct (session_state w !! "logged_in") eqn:H; [done|].
    rewrite lookup_insert_ne; [done|]. intros <-. congruence. }
  assert (Hkeep2 : forall key v, s1 !! key = Some v -> s2 !! key = Some v).
  { intros key v Hv. subst s2.
    destruct (s1 !! "user_type") eqn:H; [done|].
    rewrite lookup_insert_ne; [done|]. intros <-. congruence. }
  exists (with_session_state s2 w).
  split; [exact Hrun|]. split; [exact Hflag2|]. split; [exact Hrole2|].
  split; [by eauto|]. split; [done|].
  pose proof (init_session_state_run (with_session_state s2 w)) as Hagain.
  cbv zeta in Hagain. cbn [session_state with_session_state] in Hagain.
  destruct Hflag2 as [f Hf]. destruct Hrole2 as [r Hr].
  rewrite Hf, Hr in Hagain. exact Hagain.
Qed.

(** *** The records offered for editing *)

(** X9.  When the session's "user_type" is anything but the first
    configured role ([None] and roles that are not configured included),
    the list offered for editing is read from the second store, [db2]. *)
Theorem current_records_second_store
    (get_records : WeightDatabase -> M (list WeightRecord))
    (w w' : World) (db1 db2 : WeightDatabase) (user_type : value) (role0 : string)
    (records : list WeightRecord) (start_date end_date : Z) :
  session_state w !! "user_type" = Some user_type ->
  secrets_user_type w !! 0%nat = Some role0 ->
  user_type <> VStr role0 ->
  get_records db2 w = (Return records, w') ->
  current_records get_records db1 db2 start_date end_date w
  = (Return (filter (fun r => (start_date <= timestamp r <= end_date)%Z) records), w').
Proof.
  intros Hsession Hrole0 Hne Hrecords.
  unfold current_records, bind at 1, session_get. rewrite Hsession.
  cbn [ret]. unfold bind at 1, secrets_user_type_at. rewrite Hrole0.
  cbn [ret].
  assert (Hneq : value_eqb user_type (VStr role0) = false).
  { destruct user_type as [|b|s]; [done..|]. simpl.
    apply String.eqb_neq. congruence. }
  rewrite Hneq. unfold bind. by rewrite Hrecords.
Qed.

Lemma current_records_second_store_witness :
  current_records sample_get_records
                  (mkWeightDatabase "A") (mkWeightDatabase "B") 1 3 world_unknown_role
  = (Return (filter (fun r => (1 <= timestamp r <= 3)%Z) (sample_records "B")),
     world_unknown_role).
Proof.
  apply (current_records_second_store sample_get_records
           world_unknown_role world_unknown_role
           (mkWeightDatabase "A") (mkWeightDatabase "B") (VStr "C") "A");
    [reflexivity | reflexivity | discriminate | reflexivity].
Defined.

(* ===================================================================== *)
(** ** The login page                                                     *)
(* ===================================================================== *)

(** Up to its two forms, [login_page] draws the title and the device id
    and puts the id in the session. *)
Lemma login_page_resolve inputs w d :
  resolves w d ->
  exists w0,
    login_page inputs w
    = (device_info <- verify_device d ;;
       match device_info with
       | None => registration_form d inputs
       | Some _ => login_form d inputs
       end) w0 /\
    same_backend w0 w /\
    session_state w0 = <["device_id" := VStr d]> (session_state w).
Proof.
  intros [Hcached | [Habs ->]].
  - eexists. split; [|split].
    + unfold login_page, bind at 1, st_title.
      unfold bind at 1. rewrite (get_device_id_cached _ (VStr d)) by exact Hcached.
      unfold bind at 1, st_write. reflexivity.
    + by repeat split.
    + simpl. by rewrite insert_id.
  - eexists. split; [|split].
    + unfold login_page, bind at 1, st_title.
      unfold bind at 1. rewrite get_device_id_first by exact Habs.
      unfold bind at 1, st_write. reflexivity.
    + by repeat split.
    + reflexivity.
Qed.

(** [authenticate] reads the registry and never writes it. *)
Lemma authenticate_same_backend d p w :
  same_backend (snd (authenticate d p w)) w.
Proof.
  destruct (get_fault w) as [e|] eqn:Hget.
  { by rewrite (authenticate_read_fault _ _ _ e). }
  destruct (registry w !! d) as [info|] eqn:Hinfo.
  - destruct (decide (device.password info = hash_pasword p)) as [Hpw|Hpw].
    + by rewrite (authenticate_match _ _ _ info).
    + by rewrite (authenticate_mismatch _ _ _ info).
  - by rewrite authenticate_unregistered.
Qed.

Lemma login_form_devices_node d inputs w :
  devices_node (snd (login_form d inputs w)) = devices_node w.
Proof.
  unfold login_form, bind at 1, st_button.
  destruct (pressed w "ログイン"); [|done].
  pose proof (authenticate_same_backend d (text_input_password inputs) w) as (Hn & _).
  unfold bind.
  destruct (authenticate d (text_input_password inputs) w) as [[[|] | e |] w1];
    simpl in *; done.
Qed.

Lemma registration_form_session d inputs w :
  session_state (snd (registration_form d inputs w)) = session_state w.
Proof.
  unfold registration_form, bind at 1, st_subheader.
  unfold bind at 1, st_button. cbn [pressed with_page].
  destruct (pressed w "デバイスを登録"); [|done].
  pose proof (register_device_session d
                (selectbox_user_type inputs) (text_input_password inputs)
                (with_page (page w ++ ["新規デバイス登録"]) w)) as Hs.
  unfold bind.
  destruct (register_device d (selectbox_user_type inputs)
              (text_input_password inputs) _) as [[[|] | e |] w1];
    simpl in *; done.
Qed.

Lemma login_form_match d inputs w info :
  pressed w "ログイン" = true ->
  get_fault w = None -> registry w !! d = Some info ->
  device.password info = hash_pasword (text_input_password inputs) ->
  login_form d inputs w
  = (Rerun,
     with_page (page w ++ ["ログインに成功しました"])
       (with_session_state
          (<["logged_in" := VBool true]>
             (<["user_type" := VStr (device.user_type info)]> (session_state w)))
          w)).
Proof.
  intros Hpressed Hget Hinfo Hpw.
  unfold login_form, bind at 1, st_button. rewrite Hpressed.
  unfold bind at 1. by rewrite (authenticate_match _ _ _ info).
Qed.

(** Unless the login button is pressed on a matching password, the login
    form leaves the session as it was. *)
Lemma login_form_session d inputs w :
  session_state (snd (login_form d inputs w)) <> session_state w ->
  exists info,
    pressed w "ログイン" = true /\ get_fault w = None /\
    registry w !! d = Some info /\
    device.password info = hash_pasword (text_input_password inputs).
Proof.
  intros Hchanged.
  destruct (pressed w "ログイン") eqn:Hpressed; cycle 1.
  { exfalso. apply Hchanged.
    unfold login_form, bind, st_button. by rewrite Hpressed. }
  destruct (get_fault w) as [e|] eqn:Hget.
  { exfalso. apply Hchanged.
    unfold login_form, bind at 1, st_button. rewrite Hpressed.
    unfold bind. by rewrite (authenticate_read_fault _ _ _ e). }
  destruct (registry w !! d) as [info|] eqn:Hinfo; cycle 1.
  { exfalso. apply Hchanged.
    unfold login_form, bind at 1, st_button. rewrite Hpressed.
    unfold bind. by rewrite authenticate_unregistered. }
  destruct (decide (device.password info = hash_pasword (text_input_password inputs)))
    as [Hpw|Hpw]; [by exists info|].
  exfalso. apply Hchanged.
  unfold login_form, bind at 1, st_button. rewrite Hpressed.
  unfold bind. by rewrite (authenticate_mismatch _ _ _ info).
Qed.

(** X10.  For a device that is registered already, [login_page] leaves
    the registry as it is, whatever is typed and whichever button is
    pressed: the page offers no way to register that device again. *)
Theorem login_page_keeps_registration
    (w : World) (inputs : Inputs) (device_id : string) :
  resolves w device_id ->
  is_Some (registry w !! device_id) ->
  devices_node (snd (login_page inputs w)) = devices_node w.
Proof.
  intros Hres [info Hinfo].
  destruct (login_page_resolve inputs w device_id Hres)
    as (w0 & -> & (Hnode & Hget & _) & _).
  unfold bind at 1.
  destruct (get_fault w0) as [e|] eqn:Hget0.
  { unfold verify_device, bind, ref_get. by rewrite Hget0. }
  rewrite verify_device_ok by done.
  assert (Hinfo0 : registry w0 !! device_id = Some info).
  { unfold registry in *. by rewrite Hnode. }
  rewrite Hinfo0. by rewrite login_form_devices_node.
Qed.

Lemma login_page_keeps_registration_witness :
  devices_node (snd (login_page sample_inputs (pressing "デバイスを登録" world_logout_pressed)))
  = devices_node (pressing "デバイスを登録" world_logout_pressed).
Proof.
  apply (login_page_keeps_registration _ sample_inputs "D1").
  - by left.
  - by eexists.
Defined.

(** X11.  [login_page] changes "logged_in" in the session only by a
    login: the device is registered, the login button is pressed and the
    digest of the typed password is the stored one.  The script then
    reruns with "logged_in" set to [True] and "user_type" to the
    registered role. *)
Theorem login_page_logs_in_on_match
    (w : World) (inputs : Inputs) (device_id : string) :
  resolves w device_id ->
  session_state (snd (login_page inputs w)) !! "logged_in"
  <> session_state w !! "logged_in" ->
  exists info,
    registry w !! device_id = Some info /\
    device.password info = hash_pasword (text_input_password inputs) /\
    pressed w "ログイン" = true /\
    fst (login_page inputs w) = Rerun /\
    session_state (snd (login_page inputs w)) !! "logged_in" = Some (VBool true) /\
    session_state (snd (login_page inputs w)) !! "user_type"
    = Some (VStr (device.user_type info)).
Proof.
  intros Hres.
  destruct (login_page_resolve inputs w device_id Hres)
    as (w0 & -> & (Hnode & Hget & _ & _ & Hpressed & _) & Hsession).
  assert (Hflag0 : session_state w0 !! "logged_in" = session_state w !! "logged_in").
  { rewrite Hsession. by rewrite lookup_insert_ne. }
  rewrite <- Hflag0. clear Hflag0 Hsession.
  assert (Hreg : registry w0 = registry w) by (unfold registry; by rewrite Hnode).
  rewrite <- Hreg, <- Hpressed. clear Hreg Hpressed Hnode Hget.
  unfold bind at 1 2 3 4.
  destruct (get_fault w0) as [e|] eqn:Hget0.
  { unfold verify_device, bind, ref_get. rewrite Hget0. simpl. congruence. }
  rewrite verify_device_ok by done.
  destruct (registry w0 !! device_id) as [info|] eqn:Hinfo.
  - intros Hchanged.
    destruct (login_form_session device_id inputs w0) as (info' & Hp & _ & Hi & Hpw).
    { intros Heq. apply Hchanged. by rewrite Heq. }
    assert (info' = info) as -> by congruence.
    exists info. rewrite (login_form_match _ _ _ info) by done.
    split; [done|]. split; [done|]. split; [done|]. split; [done|]. simpl.
    split; [apply lookup_insert_eq|].
    by rewrite lookup_insert_ne, lookup_insert_eq.
  - rewrite registration_form_session. congruence.
Qed.

Lemma login_page_logs_in_on_match_witness :
  exists info,
    registry world_login_pressed !! "D1" = Some info /\
    device.password info = hash_pasword (text_input_password sample_inputs) /\
    pressed world_login_pressed "ログイン" = true /\
    fst (login_page sample_inputs world_login_pressed) = Rerun /\
    session_state (snd (login_page sample_inputs world_login_pressed))
      !! "logged_in" = Some (VBool true) /\
    session_state (snd (login_page sample_inputs world_login_pressed))
      !! "user_type" = Some (VStr (device.user_type info)).
Proof.
  apply (login_page_logs_in_on_match world_login_pressed sample_inputs "D1").
  - by left.
  - vm_compute. discriminate.
Defined.

Lemma registration_form_ok d inputs w :
  pressed w "デバイスを登録" = true ->
  get_fault w = None -> set_fault w = None ->
  registration_form d inputs w
  = (Rerun,
     with_page (page w ++ ["新規デバイス登録"] ++ ["デバイスが登録されました"])
       (with_devices_node
          (Some (<[d := registration w (selectbox_user_type inputs)
                                       (text_input_password inputs)]> (registry w)))
          w)).
Proof.
  intros Hpressed Hget Hset.
  unfold registration_form, bind at 1, st_subheader.
  unfold bind at 1, st_button. cbn [pressed with_page]. rewrite Hpressed.
  unfold bind at 1. rewrite register_device_ok by done.
  unfold bind, st_success, st_rerun. cbn. by rewrite <- app_assoc.
Qed.

(** A registration through the page, step by step. *)
Lemma login_page_register_run inputs w d :
  resolves w d -> registry w !! d = None ->
  get_fault w = None -> set_fault w = None ->
  pressed w "デバイスを登録" = true ->
  exists w',
    login_page inputs w = (Rerun, w') /\
    registry w' = <[d := registration w (selectbox_user_type inputs)
                                        (text_input_password inputs)]> (registry w) /\
    session_state w' = <["device_id" := VStr d]> (session_state w) /\
    get_fault w' = None.
Proof.
  intros Hres Hnone Hget Hset Hpressed.
  destruct (login_page_resolve inputs w d Hres)
    as (w0 & -> & (Hnode & Hget0 & Hset0 & _ & Hpressed0 & Hnow) & Hsession).
  assert (Hreg : registry w0 = registry w) by (unfold registry; by rewrite Hnode).
  rewrite <- Hget0 in Hget. rewrite <- Hset0 in Hset.
  rewrite <- Hpressed0 in Hpressed.
  unfold bind at 1. rewrite verify_device_ok by done.
  rewrite Hreg, Hnone. rewrite registration_form_ok by done.
  eexists. split; [reflexivity|].
  cbn [registry devices_node with_page with_devices_node default
       session_state get_fault].
  unfold registration. by rewrite Hreg, Hnow.
Qed.

(** X12.  Registering through the page does not log in: with the device
    unregistered, the backend answering and the register button pressed,
    [login_page] stores the registration and reruns the script with
    "logged_in" and "user_type" in the session as they were. *)
Theorem login_page_register_no_login
    (w : World) (inputs : Inputs) (device_id : string) :
  resolves w device_id -> registry w !! device_id = None ->
  get_fault w = None -> set_fault w = None ->
  pressed w "デバイスを登録" = true ->
  exists w',
    login_page inputs w = (Rerun, w') /\
    registry w' !! device_id
    = Some (device.mk (selectbox_user_type inputs)
                      (hash_pasword (text_input_password inputs))
                      (now_isoformat w)) /\
    session_state w' !! "logged_in" = session_state w !! "logged_in" /\
    session_state w' !! "user_type" = session_state w !! "user_type".
Proof.
  intros Hres Hnone Hget Hset Hpressed.
  destruct (login_page_register_run inputs w device_id)
    as (w' & Hrun & Hreg & Hsession & _); [done..|].
  exists w'. split; [exact Hrun|].
  rewrite Hreg, Hsession.
  split; [apply lookup_insert_eq|].
  by rewrite !lookup_insert_ne.
Qed.

Lemma login_page_register_no_login_witness :
  exists w',
    login_page sample_inputs (pressing "デバイスを登録" fresh_world) = (Rerun, w') /\
    registry w' !! "3b241101-e2bb-4255-8caf-4136c566a962"
    = Some (device.mk "A" (hash_pasword "p1") "2024-05-01T08:30:00.000000") /\
    session_state w' !! "logged_in"
    = session_state (pressing "デバイスを登録" fresh_world) !! "logged_in" /\
    session_state w' !! "user_type"
    = session_state (pressing "デバイスを登録" fresh_world) !! "user_type".
Proof.
  apply (login_page_register_no_login (pressing "デバイスを登録" fresh_world)
           sample_inputs "3b241101-e2bb-4255-8caf-4136c566a962").
  - right. by split.
  - reflexivity.
  - reflexivity.
  - reflexivity.
  - reflexivity.
Defined.

(** X13.  Register, then log in: after a registration through the page,
    a later run of [login_page] in the same session, with the backend
    answering, the login button pressed and the same password typed, logs
    in: the script reruns with "logged_in" set to [True] and "user_type"
    to the role chosen at registration. *)
Theorem login_page_register_then_login
    (w w2 : World) (inputs inputs2 : Inputs) (device_id : string) :
  resolves w device_id -> registry w !! device_id = None ->
  get_fault w = None -> set_fault w = None ->
  pressed w "デバイスを登録" = true ->
  session_state w2 = session_state (snd (login_page inputs w)) ->
  devices_node w2 = devices_node (snd (login_page inputs w)) ->
  get_fault w2 = None ->
  pressed w2 "ログイン" = true ->
  text_input_password inputs2 = text_input_password inputs ->
  exists w3,
    login_page inputs2 w2 = (Rerun, w3) /\
    session_state w3 !! "logged_in" = Some (VBool true) /\
    session_state w3 !! "user_type" = Some (VStr (selectbox_user_type inputs)).
Proof.
  intros Hres Hnone Hget Hset Hpressed Hsession2 Hnode2 Hget2 Hpressed2 Hpw.
  destruct (login_page_register_run inputs w device_id)
    as (w' & Hrun & Hreg & Hsession & _); [done..|].
  rewrite Hrun in Hsession2, Hnode2. cbn [snd] in Hsession2, Hnode2.
  assert (Hres2 : resolves w2 device_id).
  { left. rewrite Hsession2, Hsession. apply lookup_insert_eq. }
  assert (Hreg2 : registry w2 !! device_id
                  = Some (registration w (selectbox_user_type inputs)
                                         (text_input_password inputs))).
  { unfold registry in *. rewrite Hnode2, Hreg. apply lookup_insert_eq. }
  destruct (login_page_resolve inputs2 w2 device_id Hres2)
    as (w0 & -> & (Hnode0 & Hget0 & _ & _ & Hpressed0 & _) & Hsession0).
  assert (Hreg0 : registry w0 = registry w2) by (unfold registry; by rewrite Hnode0).
  rewrite <- Hget0 in Hget2. rewrite <- Hpressed0 in Hpressed2.
  unfold bind at 1. rewrite verify_device_ok by done.
  rewrite Hreg0, Hreg2.
  rewrite (login_form_match _ _ _ (registration w (selectbox_user_type inputs)
                                                 (text_input_password inputs)));
    [|done|done|by rewrite Hreg0|by rewrite Hpw].
  eexists. split; [reflexivity|]. simpl.
  split; [apply lookup_insert_eq|].
  by rewrite lookup_insert_ne, lookup_insert_eq.
Qed.

Lemma login_page_register_then_login_witness :
  exists w3,
    login_page sample_inputs
      (pressing "ログイン"
         (snd (login_page sample_inputs (pressing "デバイスを登録" fresh_world))))
    = (Rerun, w3) /\
    session_state w3 !! "logged_in" = Some (VBool true) /\
    session_state w3 !! "user_type" = Some (VStr "A").
Proof.
  apply (login_page_register_then_login
           (pressing "デバイスを登録" fresh_world) _ sample_inputs sample_inputs
           "3b241101-e2bb-4255-8caf-4136c566a962").
  - right. by split.
  - reflexivity.
  - reflexivity.
  - reflexivity.
  - reflexivity.
  - vm_compute. reflexivity.
  - vm_compute. reflexivity.
  - reflexivity.
  - reflexivity.
  - reflexivity.
Defined.

(** X16.  A wrong password on the login form: with the device
    registered, the backend answering and the login button pressed, a
    typed password whose digest is not the stored one makes [login_page]
    return without a rerun, the last thing drawn being the wrong-password
    message; "logged_in" and "user_type" in the session and the registry
    are as before. *)
Theorem login_page_wrong_password
    (w : World) (inputs : Inputs) (device_id : string) (info : device.t) :
  resolves w device_id ->
  get_fault w = None ->
  registry w !! device_id = Some info ->
  device.password info <> hash_pasword (text_input_password inputs) ->
  pressed w "ログイン" = true ->
  exists w',
    login_page inputs w = (Return tt, w') /\
    last (page w') = Some "パスワードが正しくありません" /\
    session_state w' !! "logged_in" = session_state w !! "logged_in" /\
    session_state w' !! "user_type" = session_state w !! "user_type" /\
    devices_node w' = devices_node w.
Proof.
  intros Hres Hget Hinfo Hpw Hpressed.
  destruct (login_page_resolve inputs w device_id Hres)
    as (w0 & -> & (Hnode & Hget0 & _ & _ & Hpressed0 & _) & Hsession).
  assert (Hreg : registry w0 = registry w) by (unfold registry; by rewrite Hnode).
  rewrite <- Hget0 in Hget. rewrite <- Hpressed0 in Hpressed.
  rewrite <- Hreg in Hinfo.
  unfold bind at 1. rewrite verify_device_ok by done. rewrite Hinfo.
  unfold login_form, bind at 1, st_button. rewrite Hpressed.
  unfold bind at 1. rewrite (authenticate_mismatch _ _ _ info) by done.
  eexists. split; [reflexivity|].
  cbn [page session_state devices_node with_page].
  split; [apply last_snoc|]. rewrite Hsession.
  by rewrite !lookup_insert_ne.
Qed.

Lemma login_page_wrong_password_witness :
  exists w',
    login_page (mkInputs "A" "wrong" false) world_login_pressed = (Return tt, w') /\
    last (page w') = Some "パスワードが正しくありません" /\
    session_state w' !! "logged_in" = session_state world_login_pressed !! "logged_in" /\
    session_state w' !! "user_type" = session_state world_login_pressed !! "user_type" /\
    devices_node w' = devices_node world_login_pressed.
Proof.
  apply (login_page_wrong_password world_login_pressed (mkInputs "A" "wrong" false)
           "D1" (device.mk "A" (hash_pasword "p1") "2024-04-30T21:15:02.118345")).
  - by left.
  - reflexivity.
  - reflexivity.
  - intros Hdigest. vm_compute in Hdigest. discriminate Hdigest.
  - reflexivity.
Defined.

(** X17.  [login_page] does not catch a failed backend read: when the
    read of the registry raises, the page ends in that exception, with
    nothing written to the registry and no login. *)
Theorem login_page_read_fault
    (w : World) (inputs : Inputs) (device_id : string) (e : exception) :
  resolves w device_id ->
  get_fault w = Some e ->
  fst (login_page inputs w) = Raise e /\
  devices_node (snd (login_page inputs w)) = devices_node w /\
  session_state (snd (login_page inputs w)) !! "logged_in"
  = session_state w !! "logged_in".
Proof.
  intros Hres Hget.
  destruct (login_page_resolve inputs w device_id Hres)
    as (w0 & -> & (Hnode & Hget0 & _) & Hsession).
  rewrite <- Hget0 in Hget.
  unfold bind at 1 2 3, verify_device, bind, ref_get. rewrite Hget.
  cbn [fst snd raise]. rewrite Hsession.
  by rewrite lookup_insert_ne.
Qed.

Lemma login_page_read_fault_witness :
  fst (login_page sample_inputs world_read_refused)
  = Raise (mkException "UnavailableError" "503 Service Unavailable") /\
  devices_node (snd (login_page sample_inputs world_read_refused))
  = devices_node world_read_refused /\
  session_state (snd (login_page sample_inputs world_read_refused)) !! "logged_in"
  = session_state world_read_refused !! "logged_in".
Proof.
  apply (login_page_read_fault world_read_refused sample_inputs
           "3b241101-e2bb-4255-8caf-4136c566a962").
  - right. by split.
  - reflexivity.
Defined.

(* ===================================================================== *)
(** ** The gate in [main]                                                 *)
(* ===================================================================== *)

(** X14.  Without a login in the session ("logged_in" missing or falsy),
    a run of [main] is a run of [login_page] on the initialised session:
    none of the record stores and components is reached, whatever they
    are. *)
Theorem main_logged_out_is_login_page
    (get_records : WeightDatabase -> M (list WeightRecord))
    (WeightInputForm_render : value -> M unit)
    (DateRangeSelector_render : M (Z * Z))
    (WeightVisualizer_render :
       list WeightRecord -> list WeightRecord -> Z -> Z -> bool -> M unit)
    (WeightRecordEditor_render : value -> list WeightRecord -> M unit)
    (inputs : Inputs) (w : World) :
  (session_state w !! "logged_in" = None \/
   exists v, session_state w !! "logged_in" = Some v /\ truthy v = false) ->
  main get_records WeightInputForm_render DateRangeSelector_render
       WeightVisualizer_render WeightRecordEditor_render inputs w
  = login_page inputs (snd (init_session_state w)).
Proof.
  intros Hout.
  unfold main, bind at 1.
  pose proof (init_session_state_run w) as Hrun. cbv zeta in Hrun.
  rewrite Hrun. cbn [snd].
  set (s1 := match session_state w !! "logged_in" with
             | Some _ => session_state w
             | None => <["logged_in" := VBool false]> (session_state w)
             end).
  assert (Hflag1 : exists v, s1 !! "logged_in" = Some v /\ truthy v = false).
  { subst s1. destruct Hout as [Hnone | (v & Hv & Hfalsy)].
    - rewrite Hnone. exists (VBool false). by rewrite lookup_insert_eq.
    - rewrite Hv. by exists v. }
  destruct Hflag1 as (v & Hv & Hfalsy).
  set (s2 := match s1 !! "user_type" with
             | Some _ => s1
             | None => <["user_type" := VNone]> s1
             end).
  assert (Hflag2 : s2 !! "logged_in" = Some v).
  { subst s2. destruct (s1 !! "user_type"); [done|].
    by rewrite lookup_insert_ne. }
  unfold bind at 1, session_get. cbn [session_state with_session_state].
  rewrite Hflag2. cbn [ret]. by rewrite Hfalsy.
Qed.

Lemma main_logged_out_is_login_page_witness :
  main sample_get_records sample_form_render sample_date_range
       sample_visualizer_render sample_editor_render sample_inputs fresh_world
  = login_page sample_inputs (snd (init_session_state fresh_world)).
Proof.
  apply main_logged_out_is_login_page. by left.
Defined.

(** X15.  After the logout button, the next run of [main] in that session
    is the login page: the record stores and components are not reached
    until a password is accepted again. *)
Theorem main_after_logout
    (get_records : WeightDatabase -> M (list WeightRecord))
    (WeightInputForm_render : value -> M unit)
    (DateRangeSelector_render : M (Z * Z))
    (WeightVisualizer_render :
       list WeightRecord -> list WeightRecord -> Z -> Z -> bool -> M unit)
    (WeightRecordEditor_render : value -> list WeightRecord -> M unit)
    (inputs : Inputs) (w w2 : World) :
  pressed w "ログアウト" = true ->
  session_state w2 = session_state (snd (main_logout w)) ->
  main get_records WeightInputForm_render DateRangeSelector_render
       WeightVisualizer_render WeightRecordEditor_render inputs w2
  = login_page inputs w2.
Proof.
  intros Hpressed Hsession.
  rewrite main_logout_pressed in Hsession by done.
  cbn [snd session_state with_session_state] in Hsession.
  assert (Hflag : session_state w2 !! "logged_in" = Some (VBool false)).
  { rewrite Hsession. by rewrite lookup_insert_ne, lookup_insert_eq. }
  assert (Hrole : session_state w2 !! "user_type" = Some VNone).
  { rewrite Hsession. apply lookup_insert_eq. }
  unfold main, bind at 1.
  pose proof (init_session_state_run w2) as Hrun. cbv zeta in Hrun.
  rewrite Hflag, Hrole in Hrun. rewrite with_session_state_id in Hrun.
  rewrite Hrun. unfold bind at 1, session_get. by rewrite Hflag.
Qed.

Lemma main_after_logout_witness :
  main sample_get_records sample_form_render sample_date_range
       sample_visualizer_render sample_editor_render sample_inputs
       world_login_pressed
  = login_page sample_inputs world_login_pressed.
Proof.
  apply (main_after_logout _ _ _ _ _ sample_inputs world_logout_pressed);
    reflexivity.
Defined.
